(** * Head-to-head cricket statistics: the classifier, the aggregator and the
      query layer of [cricket_head_to_head.py] and [cricket_report_generator.py]

    Python values are embedded as follows.
    - [str] is [string]; [x in s], [s.startswith(x)] and [s.split(sep)] are the
      functions of [PyStr].
    - [int] counters are [Z].
    - a [dict] keeps its insertion order and is an association list with
      unique keys ([Dict]); [defaultdict] item access creates the missing
      entry at the end.
    - a JSON object whose fields are read with [.get] is a record of optional
      fields, except a participant, which stays a dictionary because the
      aggregator tests its truth value.
    - [set] is a duplicate-free list.
    - the win rate, a Python [float] obtained by true division of two
      counters, is the exact rational.
    - the win percentage of a summary is the binary64 [float] of [PrimFloat];
      the conversion of a counter is exact below [2^53]. *)

From Stdlib Require Import String Ascii List ZArith QArith Bool Lia.
From Stdlib Require Import Permutation Sorted.
From Stdlib Require PrimFloat Uint63.
Import ListNotations.

Local Open Scope string_scope.
Local Open Scope list_scope.
Local Open Scope Z_scope.

(** ** Python string operations *)

Module PyStr.

(** [needle in hay] *)
Fixpoint contains (needle hay : string) : bool :=
  match hay with
  | EmptyString => prefix needle EmptyString
  | String _ rest => prefix needle hay || contains needle rest
  end.

(** [s.startswith(p)] *)
Definition startswith (s p : string) : bool := prefix p s.

(** The scan of [s.split(sep)]: [cur] is the part being read, [skip] counts
    the characters of a separator that was just recognised and is still to
    be passed over. *)
Fixpoint split_from (sep : string) (skip : nat) (cur s : string) : list string :=
  match s with
  | EmptyString => [cur]
  | String c rest =>
      match skip with
      | S k => split_from sep k cur rest
      | O =>
          if prefix sep s
          then cur :: split_from sep (Nat.pred (String.length sep)) EmptyString rest
          else split_from sep O (cur ++ String c EmptyString)%string rest
      end
  end.

(** [s.split(sep)] for a non-empty [sep] *)
Definition split (sep s : string) : list string :=
  split_from sep O EmptyString s.

(** truth value of a [str] or [None] *)
Definition truthy (o : option string) : bool :=
  match o with
  | None => false
  | Some EmptyString => false
  | Some (String _ _) => true
  end.

(** insertion of [x] after the elements that are not greater, as a stable
    sort does *)
Fixpoint insert_sorted (x : string) (l : list string) : list string :=
  match l with
  | [] => [x]
  | y :: l' => if String.leb y x then y :: insert_sorted x l' else x :: l
  end.

(** [sorted(l)] on strings *)
Definition sorted (l : list string) : list string :=
  fold_left (fun acc x => insert_sorted x acc) l [].

End PyStr.

(** ** Insertion-ordered dictionaries *)

Module Dict.
Section Defs.
Context {V : Type}.

Definition t := list (string * V).

(** [d.keys()] *)
Definition keys (d : list (string * V)) : list string := map fst d.

(** [d.get(k)] *)
Fixpoint get (k : string) (d : list (string * V)) : option V :=
  match d with
  | [] => None
  | (k', v) :: d' => if String.eqb k' k then Some v else get k d'
  end.

(** [d.get(k, dflt)] *)
Definition get_default (dflt : V) (k : string) (d : list (string * V)) : V :=
  match get k d with
  | Some v => v
  | None => dflt
  end.

(** [k in d] *)
Definition mem (k : string) (d : list (string * V)) : bool :=
  match get k d with
  | Some _ => true
  | None => false
  end.

(** [d[k] = f(d[k])] on a [defaultdict] whose factory yields [dflt]: the
    entry is updated in place, or created at the end when missing. *)
Fixpoint update (dflt : V) (f : V -> V) (k : string) (d : list (string * V))
  : list (string * V) :=
  match d with
  | [] => [(k, f dflt)]
  | (k', v) :: d' =>
      if String.eqb k' k then (k', f v) :: d'
      else (k', v) :: update dflt f k d'
  end.
End Defs.
Arguments t : clear implicits.
End Dict.

(** ** Data model *)

(** The value the [defaultdict] factories create:
    [{"wins": 0, "losses": 0, "total_matches": 0}] *)
Record Stats : Type := mkStats {
  wins : Z;
  losses : Z;
  total_matches : Z
}.

Definition new_stats : Stats := mkStats 0 0 0.

Definition incr_total_matches (s : Stats) : Stats :=
  mkStats (wins s) (losses s) (total_matches s + 1).
Definition incr_wins (s : Stats) : Stats :=
  mkStats (wins s + 1) (losses s) (total_matches s).
Definition incr_losses (s : Stats) : Stats :=
  mkStats (wins s) (losses s + 1) (total_matches s).

(** One entry of [match_user_details.users]: a JSON object with string
    fields ([user_id], [name], [result], [pic_url], ...). *)
Definition User : Type := Dict.t string.

(** [tournament_match_details.tournament_type_details] *)
Record TournamentTypeDetails : Type := mkTournamentTypeDetails {
  ttd_tournament_name : option string
}.

(** [tournament_match_details] *)
Record TournamentMatchDetails : Type := mkTournamentMatchDetails {
  tournament_type_details : option TournamentTypeDetails
}.

(** One element of [match_details]; [None] is a missing key. [users] is
    [match.get('match_user_details', {}).get('users', [])]. *)
Record Match : Type := mkMatch {
  status : option string;
  match_mode : option string;
  users : list User;
  tournament_name : option string;
  tournament_match_details : option TournamentMatchDetails
}.

(** The three aggregates both classes keep. *)
Record Store : Type := mkStore {
  head_to_head_stats : Dict.t Stats;
  tournament_stats : Dict.t (Dict.t Stats);
  tournament_types : list string
}.

Definition empty_store : Store := mkStore [] [] [].

Definition player_id : string := "7899a991-fffd-495f-851e-fc5afa366356".

(** [tournament_types.add(x)] *)
Definition set_add (x : string) (s : list string) : list string :=
  if existsb (String.eqb x) s then s else s ++ [x].

(** The loop over [users]: the last participant with the tracked id becomes
    [myself], the last other one [opponent]. *)
Definition find_players (us : list User) : option User * option User :=
  fold_left
    (fun (acc : option User * option User) (user : User) =>
       match Dict.get "user_id" user with
       | Some uid =>
           if String.eqb uid player_id then (Some user, snd acc)
           else (fst acc, Some user)
       | None => (fst acc, Some user)
       end)
    us (None, None).

(** truth value of [myself] / [opponent]: [None] and the empty dictionary are
    false *)
Definition user_truthy (u : option User) : bool :=
  match u with
  | None => false
  | Some [] => false
  | Some (_ :: _) => true
  end.

(** [match.get('status') != 'COMPLETED' or match.get('match_mode') != 'DUAL_PLAYER'] *)
Definition not_completed_dual (m : Match) : bool :=
  negb (match status m with Some s => String.eqb s "COMPLETED" | None => false end)
  || negb (match match_mode m with Some s => String.eqb s "DUAL_PLAYER" | None => false end).

(** [tournament_stats[bucket][opponent_name][field] += 1] *)
Definition bump_bucket (f : Stats -> Stats) (bucket opponent_name : string)
    (ts : Dict.t (Dict.t Stats)) : Dict.t (Dict.t Stats) :=
  Dict.update [] (Dict.update new_stats f opponent_name) bucket ts.

(** [my_result == s], where [my_result] is [myself.get('result')] *)
Definition result_is (my_result : option string) (s : string) : bool :=
  match my_result with
  | Some r => String.eqb r s
  | None => false
  end.

(** The statements from [tournament_types.add(main_type)] to the end of the
    loop body; they are the same text in both classes. *)
Definition record_result (opponent_name : string) (my_result : option string)
    (main_type subtype : string) (st : Store) : Store :=
  let types1 := set_add main_type (tournament_types st) in
  let h1 := Dict.update new_stats incr_total_matches opponent_name (head_to_head_stats st) in
  let t1 := bump_bucket incr_total_matches main_type opponent_name (tournament_stats st) in
  let t2 := bump_bucket incr_total_matches subtype opponent_name t1 in
  if result_is my_result "WIN" then
    let h2 := Dict.update new_stats incr_wins opponent_name h1 in
    let t3 := bump_bucket incr_wins main_type opponent_name t2 in
    let t4 := bump_bucket incr_wins subtype opponent_name t3 in
    mkStore h2 t4 types1
  else if result_is my_result "LOSS" then
    let h2 := Dict.update new_stats incr_losses opponent_name h1 in
    let t3 := bump_bucket incr_losses main_type opponent_name t2 in
    let t4 := bump_bucket incr_losses subtype opponent_name t3 in
    mkStore h2 t4 types1
  else mkStore h1 t2 types1.

(** [get_tournament_subtypes], the same text in both classes *)
Definition get_tournament_subtypes (main_type : string) (st : Store) : list string :=
  PyStr.sorted
    (filter
       (fun tournament_type =>
          PyStr.startswith tournament_type main_type
          && PyStr.contains " - " tournament_type)
       (Dict.keys (tournament_stats st))).

(** ** [cricket_head_to_head.py] *)

Module CricketHeadToHead.

Definition parse_tournament_type (tournament_name : option string) : string * string :=
  if negb (PyStr.truthy tournament_name) then ("Other", "Unknown")
  else
    let name := match tournament_name with Some n => n | None => "" end in
    if PyStr.contains "iBC PRO 360" name then
      let parts := PyStr.split " - " name in
      if (1 <? List.length parts)%nat then
        let subtype_part := hd "" (PyStr.split " " (nth 1 parts "")) in
        ("iBC PRO 360", ("iBC PRO 360 - " ++ subtype_part)%string)
      else ("iBC PRO 360", "iBC PRO 360 - Unknown")
    else if PyStr.contains "iBC 360" name then
      let parts := PyStr.split " - " name in
      if (1 <? List.length parts)%nat then
        let subtype_part := hd "" (PyStr.split " " (nth 1 parts "")) in
        ("iBC 360", ("iBC 360 - " ++ subtype_part)%string)
      else ("iBC 360", "iBC 360 - Unknown")
    else ("Other", name).

(** [match.get('tournament_name', 'Unknown')] *)
Definition resolve_tournament_name (m : Match) : string :=
  match tournament_name m with
  | Some n => n
  | None => "Unknown"
  end.

(** [parse_tournament_type] on the resolved name *)
Definition classify_match (m : Match) : string * string :=
  parse_tournament_type (Some (resolve_tournament_name m)).

(** One iteration of the loop of [calculate_head_to_head]. *)
Definition process_match (st : Store) (m : Match) : Store :=
  if not_completed_dual m then st
  else
    let (myself, opponent) := find_players (users m) in
    if negb (user_truthy myself) || negb (user_truthy opponent) then st
    else
      let me := match myself with Some u => u | None => [] end in
      let opp := match opponent with Some u => u | None => [] end in
      let opponent_name := Dict.get_default "Unknown" "name" opp in
      let my_result := Dict.get "result" me in
      let (main_type, subtype) := classify_match m in
      record_result opponent_name my_result main_type subtype st.

Definition calculate_head_to_head (data : list Match) (st : Store) : Store :=
  fold_left process_match data st.

End CricketHeadToHead.

(** ** [cricket_report_generator.py] *)

Module CricketReportGenerator.

Definition parse_tournament_type (tournament_name : option string) : string * string :=
  if negb (PyStr.truthy tournament_name) then ("Other", "Unknown")
  else
    let name := match tournament_name with Some n => n | None => "" end in
    if PyStr.contains "iBC PRO 360" name then
      let parts := PyStr.split " - " name in
      if (1 <? List.length parts)%nat then
        let subtype_part := hd "" (PyStr.split " " (nth 1 parts "")) in
        ("iBC PRO 360", ("iBC PRO 360 - " ++ subtype_part)%string)
      else ("iBC PRO 360", "iBC PRO 360 - Unknown")
    else if PyStr.contains "iBC 360" name
            && negb (PyStr.contains "iBC PRO 360" name) then
      let parts := PyStr.split " - " name in
      if (1 <? List.length parts)%nat then
        let subtype_part := hd "" (PyStr.split " " (nth 1 parts "")) in
        ("iBC 360", ("iBC 360 - " ++ subtype_part)%string)
      else ("iBC 360", "iBC 360 - Unknown")
    else ("Other", name).

(** The state of the generator: the three aggregates and the profile
    pictures. *)
Record State : Type := mkState {
  store : Store;
  player_pic_url : string;
  opponent_pics : Dict.t string
}.

Definition empty_state : State := mkState empty_store "" [].

(** [match.get('tournament_match_details', {})
          .get('tournament_type_details', {})
          .get('tournament_name', 'Unknown')] *)
Definition resolve_tournament_name (m : Match) : string :=
  match tournament_match_details m with
  | Some tmd =>
      match tournament_type_details tmd with
      | Some ttd =>
          match ttd_tournament_name ttd with
          | Some n => n
          | None => "Unknown"
          end
      | None => "Unknown"
      end
  | None => "Unknown"
  end.

(** [parse_tournament_type] on the resolved name *)
Definition classify_match (m : Match) : string * string :=
  parse_tournament_type (Some (resolve_tournament_name m)).

(** One iteration of the loop of [calculate_statistics]. *)
Definition process_match (st : State) (m : Match) : State :=
  if not_completed_dual m then st
  else
    let (myself, opponent) := find_players (users m) in
    if negb (user_truthy myself) || negb (user_truthy opponent) then st
    else
      let me := match myself with Some u => u | None => [] end in
      let opp := match opponent with Some u => u | None => [] end in
      let opponent_name := Dict.get_default "Unknown" "name" opp in
      let my_result := Dict.get "result" me in
      let pic :=
        if negb (PyStr.truthy (Some (player_pic_url st)))
        then Dict.get_default "" "pic_url" me
        else player_pic_url st in
      let opponent_pic_url := Dict.get_default "" "pic_url" opp in
      let pics :=
        if negb (Dict.mem opponent_name (opponent_pics st))
        then (opponent_pics st ++ [(opponent_name, opponent_pic_url)])%list
        else opponent_pics st in
      let (main_type, subtype) := classify_match m in
      mkState (record_result opponent_name my_result main_type subtype (store st))
              pic pics.

Definition calculate_statistics (data : list Match) (st : State) : State :=
  fold_left process_match data st.

End CricketReportGenerator.

(** ** The query [find_best_opponent] of [cricket_head_to_head.py] *)

(** [a > b] on win rates *)
Definition Qgtb (a b : Q) : bool :=
  match Qcompare a b with
  | Gt => true
  | _ => false
  end.

(** One iteration of the loop over [head_to_head_stats.items()]; the
    accumulator is [(best_opponent, best_win_rate)]. *)
Definition best_step (acc : option string * Q) (item : string * Stats)
  : option string * Q :=
  let (opponent, stats) := item in
  if 2 <=? total_matches stats then
    let win_rate := (inject_Z (wins stats) / inject_Z (total_matches stats))%Q in
    if Qgtb win_rate (snd acc) then (Some opponent, win_rate) else acc
  else acc.

Definition best_loop (d : Dict.t Stats) : option string * Q :=
  fold_left best_step d (None, inject_Z (-1)).

(** What [find_best_opponent] reports: the name and win rate it prints under
    [if best_opponent:], or nothing. *)
Definition find_best_opponent (st : Store) : option (string * Q) :=
  let (best_opponent, best_win_rate) := best_loop (head_to_head_stats st) in
  if PyStr.truthy best_opponent then
    match best_opponent with
    | Some o => Some (o, best_win_rate)
    | None => None
    end
  else None.

(** ** Observations on a store, used to state the properties *)

(** The record of [opponent] in [head_to_head_stats], if it was created. *)
Definition global_record (st : Store) (opponent : string) : option Stats :=
  Dict.get opponent (head_to_head_stats st).

(** The record of [opponent] in [tournament_stats[bucket]], if it was
    created. *)
Definition bucket_record (st : Store) (bucket opponent : string) : option Stats :=
  match Dict.get bucket (tournament_stats st) with
  | Some d => Dict.get opponent d
  | None => None
  end.

(** What a read through the [defaultdict] would give. *)
Definition stats_or_new (r : option Stats) : Stats :=
  match r with
  | Some s => s
  | None => new_stats
  end.

(** The total a read of the record would show. *)
Definition total_of (r : option Stats) : Z := total_matches (stats_or_new r).

(** The participants a match is counted with: [(myself, opponent)] when the
    match passes the status and mode test and both are found, else nothing. *)
Definition selected (m : Match) : option (User * User) :=
  if not_completed_dual m then None
  else
    match find_players (users m) with
    | (Some me, Some opp) =>
        if user_truthy (Some me) && user_truthy (Some opp) then Some (me, opp)
        else None
    | _ => None
    end.

(** [opponent.get('name', 'Unknown')] *)
Definition opponent_name_of (opp : User) : string :=
  Dict.get_default "Unknown" "name" opp.

(** Componentwise sum of two records, and [n] times a record. *)
Definition add_stats (a b : Stats) : Stats :=
  mkStats (wins a + wins b) (losses a + losses b) (total_matches a + total_matches b).

Definition scale_stats (n : Z) (a : Stats) : Stats :=
  mkStats (n * wins a) (n * losses a) (n * total_matches a).

(** What one counted match with result [my_result] adds to a record. *)
Definition result_delta (my_result : option string) : Stats :=
  mkStats (if result_is my_result "WIN" then 1 else 0)
          (if result_is my_result "LOSS" then 1 else 0)
          1.

(** A record receives a contribution [d]: nothing happens when the
    contribution counts no match, else the record is created if need be and
    grows by [d]. *)
Definition apply_delta (d : Stats) (old : option Stats) : option Stats :=
  if total_matches d =? 0 then old else Some (add_stats (stats_or_new old) d).

Definition b2z (b : bool) : Z := if b then 1 else 0.

(** The contribution of match [m] to the global record of [o], and to the
    record of [o] in bucket [b] when [m] is classified as [cls]. *)
Definition global_delta (m : Match) (o : string) : Stats :=
  match selected m with
  | Some (me, opp) =>
      scale_stats (b2z (String.eqb (opponent_name_of opp) o))
                  (result_delta (Dict.get "result" me))
  | None => new_stats
  end.

Definition bucket_delta (cls : string * string) (m : Match) (b o : string) : Stats :=
  match selected m with
  | Some (me, opp) =>
      scale_stats (b2z (String.eqb (opponent_name_of opp) o)
                   * (b2z (String.eqb (fst cls) b) + b2z (String.eqb (snd cls) b)))
                  (result_delta (Dict.get "result" me))
  | None => new_stats
  end.

(** The effect of one loop iteration on the three aggregates, given the
    classification [classify] the class uses. *)
Definition count_match (classify : Match -> string * string) (st : Store) (m : Match)
  : Store :=
  match selected m with
  | Some (me, opp) =>
      record_result (opponent_name_of opp) (Dict.get "result" me)
                    (fst (classify m)) (snd (classify m)) st
  | None => st
  end.

(** A contribution counts matches, and no more wins and losses than
    matches. *)
Definition wf_delta (d : Stats) : Prop :=
  0 <= wins d /\ 0 <= losses d /\ wins d + losses d <= total_matches d.

Definition sum_stats (l : list Stats) : Stats := fold_right add_stats new_stats l.

(** The counted matches of [data] against [o] whose result is neither
    ["WIN"] nor ["LOSS"]. *)
Definition other_result (m : Match) (o : string) : bool :=
  match selected m with
  | Some (me, opp) =>
      String.eqb (opponent_name_of opp) o
      && negb (result_is (Dict.get "result" me) "WIN")
      && negb (result_is (Dict.get "result" me) "LOSS")
  | None => false
  end.

Definition count_other_result (data : list Match) (o : string) : Z :=
  Z.of_nat (List.length (filter (fun m => other_result m o) data)).

(** The same, among the matches classified by [classify] into bucket [b]
    (as main type or as subtype). *)
Definition count_other_result_in (classify : Match -> string * string)
    (data : list Match) (b o : string) : Z :=
  Z.of_nat (List.length
    (filter (fun m => other_result m o
                      && (String.eqb (fst (classify m)) b
                          || String.eqb (snd (classify m)) b))
            data)).

(** The last element of [l] that satisfies [p]. *)
Definition last_such {A : Type} (p : A -> bool) (l : list A) : option A :=
  find p (rev l).

(** [user.get('user_id') == self.player_id] *)
Definition is_tracked (user : User) : bool :=
  match Dict.get "user_id" user with
  | Some uid => String.eqb uid player_id
  | None => false
  end.

(** [m] with the given contents of the two places that can hold a
    tournament name *)
Definition with_names (m : Match) (top : option string)
    (nested : option TournamentMatchDetails) : Match :=
  mkMatch (status m) (match_mode m) (users m) top nested.

(** [{"tournament_type_details": {"tournament_name": n}}] *)
Definition nested_name (n : string) : option TournamentMatchDetails :=
  Some (mkTournamentMatchDetails (Some (mkTournamentTypeDetails (Some n)))).

(** [a <= b] on strings, as [sorted] compares them *)
Definition str_le (a b : string) : Prop := String.leb a b = true.

(** The win rate [find_best_opponent] computes for a record. *)
Definition win_rate (s : Stats) : Q :=
  (inject_Z (wins s) / inject_Z (total_matches s))%Q.

(** ** Concrete inputs *)

Module Samples.

Definition participant (id name result : string) : User :=
  [("user_id", id); ("name", name); ("result", result)].

(** A completed two-player match of the tracked player against [name],
    with the tournament name [tname] on both paths. *)
Definition played (name my_result tname : string) : Match :=
  mkMatch (Some "COMPLETED") (Some "DUAL_PLAYER")
          [participant player_id "Prasanna Nivas" my_result;
           participant "opp-1" name "LOSS"]
          (Some tname) (nested_name tname).

(** A win in a tournament called ["Other"]. *)
Definition won_in_other : Match := played "A" "WIN" "Other".

(** A tie in a tournament called ["Other"]. *)
Definition tied_in_other : Match := played "A" "TIE" "Other".

(** A win against an opponent whose name is the empty string. *)
Definition won_against_nameless : Match := played "" "WIN" "iBC 360 - 250 Blitz".

(** A match whose tournament name is only on the nested path. *)
Definition nested_only : Match :=
  mkMatch (Some "COMPLETED") (Some "DUAL_PLAYER")
          [participant player_id "Prasanna Nivas" "WIN";
           participant "opp-1" "A" "LOSS"]
          None (nested_name "iBC 360 - 250 Blitz").

(** A match whose tournament name is only at the top level. *)
Definition top_only : Match :=
  mkMatch (Some "COMPLETED") (Some "DUAL_PLAYER")
          [participant player_id "Prasanna Nivas" "WIN";
           participant "opp-1" "A" "LOSS"]
          (Some "iBC 360 - 250 Blitz") None.

(** Three participants, none of them the tracked player. *)
Definition three_strangers : Match :=
  mkMatch (Some "COMPLETED") (Some "DUAL_PLAYER")
          [participant "opp-1" "A" "WIN";
           participant "opp-2" "B" "LOSS";
           participant "opp-3" "C" "LOSS"]
          (Some "Weekly Cup") (nested_name "Weekly Cup").

(** Three participants: the tracked player and two others. *)
Definition three_way : Match :=
  mkMatch (Some "COMPLETED") (Some "DUAL_PLAYER")
          [participant "opp-1" "A" "LOSS";
           participant player_id "Prasanna Nivas" "WIN";
           participant "opp-2" "B" "LOSS"]
          (Some "Weekly Cup") (nested_name "Weekly Cup").

(** A match in a tournament whose name starts with ["Other"]. *)
Definition other_cup : Match := played "A" "WIN" "Other Cup - Finals".

Definition in_progress : Match :=
  mkMatch (Some "IN_PROGRESS") (Some "DUAL_PLAYER")
          [participant player_id "Prasanna Nivas" "WIN";
           participant "opp-1" "A" "LOSS"]
          (Some "Weekly Cup") (nested_name "Weekly Cup").

End Samples.

(** ** The summaries and the remaining queries *)

(** [int] to [float], exact for the counters below [2^53] *)
Definition to_float (z : Z) : PrimFloat.float :=
  PrimFloat.of_uint63 (Uint63.of_Z z).

(** [(w / t * 100) if t > 0 else 0] *)
Definition percentage (w t : Z) : PrimFloat.float :=
  if 0 <? t
  then PrimFloat.mul (PrimFloat.div (to_float w) (to_float t)) (to_float 100)
  else PrimFloat.zero.

(** The insertion of a stable sort by [total_matches], largest first: [x]
    goes behind every item whose total is not smaller. *)
Fixpoint insert_by_total (x : string * Stats) (l : list (string * Stats))
  : list (string * Stats) :=
  match l with
  | [] => [x]
  | y :: l' =>
      if total_matches (snd x) <=? total_matches (snd y)
      then y :: insert_by_total x l'
      else x :: l
  end.

(** [sorted(d.items(), key=lambda x: x[1]['total_matches'], reverse=True)] *)
Definition sorted_by_total_desc (d : Dict.t Stats) : list (string * Stats) :=
  fold_left (fun acc x => insert_by_total x acc) d [].

(** [self.head_to_head_stats] for ["All"], else
    [self.tournament_stats.get(tournament_filter, {})] *)
Definition stats_data (tournament_filter : string) (st : Store) : Dict.t Stats :=
  if String.eqb tournament_filter "All" then head_to_head_stats st
  else Dict.get_default [] tournament_filter (tournament_stats st).

(** [sum(stats[field] for stats in d.values())] *)
Definition sum_field (field : Stats -> Z) (d : Dict.t Stats) : Z :=
  fold_left (fun acc x => acc + field (snd x)) d 0.

Module CricketHeadToHeadQueries.

(** The dictionary [_get_statistics_data] returns; [matches_total] is its
    key ['total_matches']. *)
Record Summary : Type := mkSummary {
  total_wins : Z;
  total_losses : Z;
  matches_total : Z;
  win_percentage : PrimFloat.float;
  opponents_data : list (string * Stats)
}.

(** The loop that adds up the three counters over the sorted items *)
Definition add_up (l : list (string * Stats)) : Z * Z * Z :=
  fold_left
    (fun (acc : Z * Z * Z) (x : string * Stats) =>
       let '(w, l, t) := acc in
       (w + wins (snd x), l + losses (snd x), t + total_matches (snd x)))
    l (0, 0, 0).

(** [_get_statistics_data] *)
Definition get_statistics_data (tournament_filter : string) (st : Store) : Summary :=
  match stats_data tournament_filter st with
  | [] => mkSummary 0 0 0 PrimFloat.zero []
  | d =>
      let sorted_opponents := sorted_by_total_desc d in
      let '(w, l, t) := add_up sorted_opponents in
      mkSummary w l t (percentage w t) sorted_opponents
  end.

(** [a < b] on win rates *)
Definition Qltb (a b : Q) : bool :=
  match Qcompare a b with
  | Lt => true
  | _ => false
  end.

(** One iteration of the loop of [find_toughest_opponent]; the accumulator
    is [(toughest_opponent, worst_win_rate)]. *)
Definition toughest_step (acc : option string * Q) (item : string * Stats)
  : option string * Q :=
  let (opponent, stats) := item in
  if 2 <=? total_matches stats then
    let win_rate := (inject_Z (wins stats) / inject_Z (total_matches stats))%Q in
    if Qltb win_rate (snd acc) then (Some opponent, win_rate) else acc
  else acc.

Definition toughest_loop (d : Dict.t Stats) : option string * Q :=
  fold_left toughest_step d (None, inject_Z 2).





End CricketHeadToHeadQueries.

Module CricketReportGeneratorQueries.

(** The dictionary [get_statistics_summary] returns; [matches_total] is its
    key ['total_matches']. *)
Record Summary : Type := mkSummary {
  total_wins : Z;
  total_losses : Z;
  matches_total : Z;
  win_percentage : PrimFloat.float;
  opponents_count : nat;
  top_opponents : list (string * Stats)
}.

(** [get_statistics_summary] *)
Definition get_statistics_summary (tournament_filter : string) (st : Store) : Summary :=
  match stats_data tournament_filter st with
  | [] => mkSummary 0 0 0 PrimFloat.zero 0 []
  | d =>
      let w := sum_field wins d in
      let l := sum_field losses d in
      let t := sum_field total_matches d in
      mkSummary w l t (percentage w t) (List.length d)
                (firstn 10 (sorted_by_total_desc d))
  end.

End CricketReportGeneratorQueries.

(** ** [load_data] *)




(** ** Counting the matches of an input *)

(** The number of counted matches of [data] that satisfy [p] *)
Definition count_counted (p : Match -> User -> User -> bool) (data : list Match) : Z :=
  Z.of_nat (List.length
    (filter (fun m => match selected m with
                      | Some (me, opp) => p m me opp
                      | None => false
                      end) data)).

(** [a] is not smaller than [b] in the order of the summaries *)
Definition total_ge (a b : string * Stats) : Prop :=
  total_matches (snd b) <= total_matches (snd a).

(** Every counter of the record doubled *)
Definition double_stats (s : Stats) : Stats :=
  mkStats (2 * wins s) (2 * losses s) (2 * total_matches s).

(** The items of [l] whose total is [t] *)
Definition with_total (t : Z) (l : list (string * Stats)) : list (string * Stats) :=
  filter (fun x => total_matches (snd x) =? t) l.

(** The sum of all the records of a dictionary *)
Definition sum_records (d : Dict.t Stats) : Stats :=
  sum_stats (map snd d).

(** What a match adds to the sum of the records of a dictionary it is
    counted in once *)
Definition counted_delta (m : Match) : Stats :=
  match selected m with
  | Some (me, _) => result_delta (Dict.get "result" me)
  | None => new_stats
  end.

(** How often a match classified as [cls] is counted in bucket [b] *)
Definition times_in_bucket (cls : string * string) (b : string) : Z :=
  b2z (String.eqb (fst cls) b) + b2z (String.eqb (snd cls) b).

(** [my_result == 'WIN'], [my_result == 'LOSS'] for the selected self *)
Definition won (me : User) : bool := result_is (Dict.get "result" me) "WIN".
Definition lost (me : User) : bool := result_is (Dict.get "result" me) "LOSS".


(** [t] is one of the three main types. *)
Definition is_main_type (t : string) : Prop :=
  t = "iBC PRO 360" \/ t = "iBC 360" \/ t = "Other".

(** No character of [s] is a space. *)
Fixpoint no_space (s : string) : bool :=
  match s with
  | EmptyString => true
  | String c rest => negb (Ascii.eqb c " ") && no_space rest
  end.

(** * Properties *)

(** ** Strings *)

Section StringFacts.

Lemma append_assoc_char (a : string) (c : ascii) (b : string) :
  ((a ++ String c "") ++ b = a ++ String c b)%string.
Proof. induction a as [|x a IH]; simpl; [reflexivity | now rewrite IH]. Qed.

Lemma append_nil_r (a : string) : (a ++ "")%string = a.
Proof. induction a as [|x a IH]; simpl; [reflexivity | now rewrite IH]. Qed.

Lemma append_assoc (a b c : string) :
  ((a ++ b) ++ c = a ++ (b ++ c))%string.
Proof. induction a as [|x a IH]; simpl; [reflexivity | now rewrite IH]. Qed.

(** The first part of a split starts with the part being read. *)
Lemma split_from_head (sep s : string) :
  forall skip cur, exists t rest,
    PyStr.split_from sep skip cur s = (cur ++ t)%string :: rest.
Proof.
  induction s as [|c s IH]; intros skip cur; cbn [PyStr.split_from].
  - exists "", []. now rewrite append_nil_r.
  - destruct skip as [|k].
    + destruct (prefix sep (String c s)).
      * exists "", (PyStr.split_from sep (Nat.pred (String.length sep)) "" s).
        now rewrite append_nil_r.
      * destruct (IH O (cur ++ String c "")%string) as (t & rest & E).
        exists (String c t), rest. now rewrite E, append_assoc_char.
    + apply IH.
Qed.

Lemma contains_cons_false (needle : string) (c : ascii) (s : string) :
  PyStr.contains needle (String c s) = false ->
  prefix needle (String c s) = false /\ PyStr.contains needle s = false.
Proof. simpl. intros H. now apply orb_false_iff in H. Qed.

Lemma contains_append_r (needle p s : string) :
  PyStr.contains needle s = true -> PyStr.contains needle (p ++ s) = true.
Proof.
  intros H. induction p as [|c p IH]; simpl; [exact H|].
  rewrite IH. apply orb_true_r.
Qed.

End StringFacts.

(** ** The classifier *)

Section Classifier.

(** A separator cannot start in a separator-free text and end in an
    [i] that follows it. *)
Lemma prefix_sep_straddle (a : ascii) (p t : string) :
  prefix " - " (String a p) = false ->
  prefix " - " (String a (p ++ String "i" t)) = false.
Proof.
  cbn [prefix append]. destruct (ascii_dec " " a); [|reflexivity].
  destruct p as [|b p]; cbn [prefix append].
  { now destruct (ascii_dec "-" "i"). }
  destruct (ascii_dec "-" b); [|reflexivity].
  destruct p as [|d p]; cbn [prefix append].
  { now destruct (ascii_dec " " "i"). }
  destruct (ascii_dec " " d); [|reflexivity].
  intros Hf. destruct p; discriminate Hf.
Qed.

Lemma split_skip_free (p t : string) :
  forall cur,
    PyStr.contains " - " p = false ->
    PyStr.split_from " - " O cur (p ++ String "i" t)
    = PyStr.split_from " - " O (cur ++ p) (String "i" t).
Proof.
  induction p as [|a p IH]; intros cur H.
  - now rewrite append_nil_r.
  - apply contains_cons_false in H. destruct H as [Hp Hc].
    cbn [append PyStr.split_from].
    rewrite (prefix_sep_straddle _ _ _ Hp).
    rewrite (IH _ Hc). now rewrite append_assoc_char.
Qed.

Lemma split_pro_500 (p s : string) :
  PyStr.contains " - " p = false ->
  exists t rest,
    PyStr.split " - " (p ++ "iBC PRO 360 - 500 Something" ++ s)
    = (p ++ "iBC PRO 360")%string :: ("500 Something" ++ t)%string :: rest.
Proof.
  intros H. unfold PyStr.split.
  change (p ++ "iBC PRO 360 - 500 Something" ++ s)%string
    with (p ++ String "i" ("BC PRO 360 - 500 Something" ++ s))%string.
  rewrite (split_skip_free _ _ _ H).
  destruct (split_from_head " - " s O "500 Something") as (t & rest & E).
  exists t, rest. simpl. rewrite !append_assoc. simpl.
  now rewrite E.
Qed.

Lemma split_space_500 (t : string) :
  hd "" (PyStr.split " " ("500 Something" ++ t)) = "500".
Proof. reflexivity. Qed.

Lemma truthy_append (p : string) (c : ascii) (s : string) :
  PyStr.truthy (Some (p ++ String c s)%string) = true.
Proof. destruct p; reflexivity. Qed.

Lemma contains_truthy (needle : string) (c : ascii) (n : string) :
  PyStr.contains (String c needle) n = true -> PyStr.truthy (Some n) = true.
Proof. destruct n; [discriminate | reflexivity]. Qed.

End Classifier.

Lemma parse_variants_eq (tournament_name : option string) :
  CricketHeadToHead.parse_tournament_type tournament_name
  = CricketReportGenerator.parse_tournament_type tournament_name.
Proof.
  unfold CricketHeadToHead.parse_tournament_type,
    CricketReportGenerator.parse_tournament_type.
  destruct (negb (PyStr.truthy tournament_name)); [reflexivity|].
  destruct (PyStr.contains "iBC PRO 360" _); [reflexivity|].
  now rewrite andb_true_r.
Qed.

(** C2. The two classifiers, of which only the one of the report generator
    asks that ["iBC PRO 360"] be absent before it answers ["iBC 360"], return
    the same pair on every tournament name, absent and empty included; a name
    that contains ["iBC PRO 360"] gets the main type ["iBC PRO 360"] from
    both. *)
Theorem parse_tournament_type_variants_agree (tournament_name : option string) :
  CricketHeadToHead.parse_tournament_type tournament_name
  = CricketReportGenerator.parse_tournament_type tournament_name
  /\ (forall n, tournament_name = Some n ->
        PyStr.contains "iBC PRO 360" n = true ->
        fst (CricketHeadToHead.parse_tournament_type tournament_name) = "iBC PRO 360"
        /\ fst (CricketReportGenerator.parse_tournament_type tournament_name)
           = "iBC PRO 360").
Proof.
  split.
  - apply parse_variants_eq.
  - intros n -> H.
    unfold CricketHeadToHead.parse_tournament_type,
      CricketReportGenerator.parse_tournament_type.
    rewrite (contains_truthy _ _ _ H), H. cbn [negb].
    destruct (1 <? _)%nat; split; reflexivity.
Qed.

Lemma parse_tournament_type_variants_agree_witness :
  CricketHeadToHead.parse_tournament_type (Some "iBC PRO 360 - 500")
  = CricketReportGenerator.parse_tournament_type (Some "iBC PRO 360 - 500")
  /\ fst (CricketHeadToHead.parse_tournament_type (Some "iBC PRO 360 - 500"))
     = "iBC PRO 360"
  /\ fst (CricketReportGenerator.parse_tournament_type (Some "iBC PRO 360 - 500"))
     = "iBC PRO 360".
Proof.
  destruct (parse_tournament_type_variants_agree (Some "iBC PRO 360 - 500"))
    as [E H].
  split; [exact E|].
  exact (H "iBC PRO 360 - 500" eq_refl eq_refl).
Defined.

(** C3, the claim as stated, fails: a name may hold
    ["iBC PRO 360 - 500 Something"] after an earlier separator, and then the
    subtype is cut from what follows that first separator. *)
Lemma parse_pro_500_anywhere_counterexample :
  PyStr.contains "iBC PRO 360 - 500 Something"
    "Season 2 - iBC PRO 360 - 500 Something" = true
  /\ CricketHeadToHead.parse_tournament_type
       (Some "Season 2 - iBC PRO 360 - 500 Something")
     = ("iBC PRO 360", "iBC PRO 360 - iBC")
  /\ CricketReportGenerator.parse_tournament_type
       (Some "Season 2 - iBC PRO 360 - 500 Something")
     = ("iBC PRO 360", "iBC PRO 360 - iBC")
  /\ String.eqb "iBC PRO 360 - iBC" "iBC PRO 360 - 500" = false.
Proof. repeat split. Qed.

(** C3, amended. When no separator [" - "] occurs before
    ["iBC PRO 360 - 500 Something"] in the name, both classifiers return
    [("iBC PRO 360", "iBC PRO 360 - 500")], whatever precedes and follows. *)
Theorem parse_pro_500_first_separator (p s : string) :
  PyStr.contains " - " p = false ->
  CricketHeadToHead.parse_tournament_type
    (Some (p ++ "iBC PRO 360 - 500 Something" ++ s)%string)
  = ("iBC PRO 360", "iBC PRO 360 - 500")
  /\ CricketReportGenerator.parse_tournament_type
       (Some (p ++ "iBC PRO 360 - 500 Something" ++ s)%string)
     = ("iBC PRO 360", "iBC PRO 360 - 500").
Proof.
  intros H.
  assert (G : CricketHeadToHead.parse_tournament_type
                (Some (p ++ "iBC PRO 360 - 500 Something" ++ s)%string)
              = ("iBC PRO 360", "iBC PRO 360 - 500")).
  { destruct (split_pro_500 p s H) as (t & rest & E).
    assert (Ht : PyStr.truthy
                   (Some (p ++ "iBC PRO 360 - 500 Something" ++ s)%string) = true)
      by apply truthy_append.
    assert (Hc : PyStr.contains "iBC PRO 360"
                   (p ++ "iBC PRO 360 - 500 Something" ++ s) = true)
      by (apply contains_append_r; reflexivity).
    unfold CricketHeadToHead.parse_tournament_type.
    rewrite Ht, Hc, E. cbn [negb List.length Nat.ltb Nat.leb nth].
    now rewrite split_space_500. }
  split; [exact G|].
  now rewrite <- parse_variants_eq.
Qed.

Lemma parse_pro_500_first_separator_witness :
  CricketHeadToHead.parse_tournament_type
    (Some ("Season 2 " ++ "iBC PRO 360 - 500 Something" ++ " Cup - Final")%string)
  = ("iBC PRO 360", "iBC PRO 360 - 500")
  /\ CricketReportGenerator.parse_tournament_type
       (Some ("Season 2 " ++ "iBC PRO 360 - 500 Something" ++ " Cup - Final")%string)
     = ("iBC PRO 360", "iBC PRO 360 - 500").
Proof.
  apply (parse_pro_500_first_separator "Season 2 " " Cup - Final").
  reflexivity.
Defined.

(** ** Dictionaries *)

Section DictFacts.
Context {V : Type}.
Implicit Types (d : Dict.t V) (k : string).

Lemma get_update (dflt : V) (f : V -> V) k k' d :
  Dict.get k' (Dict.update dflt f k d)
  = if String.eqb k k' then Some (f (Dict.get_default dflt k d))
    else Dict.get k' d.
Proof.
  unfold Dict.get_default.
  induction d as [|[k0 v] d IH]; cbn [Dict.update Dict.get].
  - reflexivity.
  - destruct (String.eqb_spec k0 k) as [->|N]; cbn [Dict.get].
    + destruct (String.eqb k k'); reflexivity.
    + rewrite IH. destruct (String.eqb_spec k0 k') as [->|N'].
      * destruct (String.eqb_spec k k'); [congruence | reflexivity].
      * reflexivity.
Qed.

Lemma keys_update (dflt : V) (f : V -> V) k d :
  Dict.keys (Dict.update dflt f k d)
  = if Dict.mem k d then Dict.keys d else (Dict.keys d ++ [k])%list.
Proof.
  unfold Dict.mem, Dict.keys.
  induction d as [|[k0 v] d IH]; cbn [Dict.update Dict.get map fst app].
  - reflexivity.
  - destruct (String.eqb k0 k); cbn [map fst].
    + reflexivity.
    + rewrite IH. now destruct (Dict.get k d).
Qed.

End DictFacts.

(** ** One counted match *)

Section RecordResult.

Lemma stats_eq (a b : Stats) :
  wins a = wins b -> losses a = losses b -> total_matches a = total_matches b ->
  a = b.
Proof. destruct a, b; cbn; intros; subst; reflexivity. Qed.

Lemma get_bump (f : Stats -> Stats) (b o b' o' : string) (ts : Dict.t (Dict.t Stats)) :
  match Dict.get b' (bump_bucket f b o ts) with
  | Some d => Dict.get o' d
  | None => None
  end
  = if String.eqb b b' && String.eqb o o'
    then Some (f (stats_or_new
                    match Dict.get b' ts with
                    | Some d => Dict.get o' d
                    | None => None
                    end))
    else match Dict.get b' ts with
         | Some d => Dict.get o' d
         | None => None
         end.
Proof.
  unfold bump_bucket. rewrite get_update.
  destruct (String.eqb_spec b b') as [->|N]; cbn [andb]; [|reflexivity].
  rewrite get_update. unfold Dict.get_default.
  destruct (Dict.get b' ts) as [d|];
    destruct (String.eqb_spec o o') as [->|N]; reflexivity.
Qed.

Lemma result_is_win_loss (r : option string) :
  result_is r "WIN" = true -> result_is r "LOSS" = false.
Proof.
  destruct r as [x|]; cbn; [|discriminate].
  intros H. apply String.eqb_eq in H. now subst.
Qed.

(** The global record of [o'] after one counted match against [o]. *)
Lemma record_result_global (o : string) (r : option string) (mt sub : string)
    (st : Store) (o' : string) :
  global_record (record_result o r mt sub st) o'
  = apply_delta (scale_stats (b2z (String.eqb o o')) (result_delta r))
                (global_record st o').
Proof.
  unfold record_result, global_record, apply_delta, result_delta.
  destruct (result_is r "WIN") eqn:W;
    [rewrite ?(result_is_win_loss _ W) | destruct (result_is r "LOSS") eqn:L];
    cbn [head_to_head_stats]; rewrite ?get_update; unfold Dict.get_default;
    rewrite ?get_update;
    destruct (String.eqb_spec o o') as [->|N]; cbn; try reflexivity;
    rewrite ?String.eqb_refl;
    f_equal; apply stats_eq; unfold stats_or_new, Dict.get_default;
    destruct (Dict.get o' (head_to_head_stats st)); cbn; lia.
Qed.

(** The record of [o'] in bucket [b'] after one counted match against [o]
    classified as [(mt, sub)]. *)
Lemma record_result_bucket (o : string) (r : option string) (mt sub : string)
    (st : Store) (b' o' : string) :
  bucket_record (record_result o r mt sub st) b' o'
  = apply_delta
      (scale_stats (b2z (String.eqb o o')
                    * (b2z (String.eqb mt b') + b2z (String.eqb sub b')))
                   (result_delta r))
      (bucket_record st b' o').
Proof.
  unfold record_result, bucket_record, apply_delta, result_delta.
  destruct (result_is r "WIN") eqn:W;
    [rewrite ?(result_is_win_loss _ W) | destruct (result_is r "LOSS") eqn:L];
    cbn [tournament_stats]; rewrite ?get_bump;
    destruct (String.eqb o o'), (String.eqb mt b'), (String.eqb sub b');
    cbn; try reflexivity;
    f_equal; apply stats_eq; unfold stats_or_new;
    destruct (Dict.get b' (tournament_stats st)) as [d|];
    try destruct (Dict.get o' d); cbn; lia.
Qed.

End RecordResult.

(** ** The loop bodies in terms of the selected participants *)

Section Process.

Lemma h2h_process_count (st : Store) (m : Match) :
  CricketHeadToHead.process_match st m
  = count_match CricketHeadToHead.classify_match st m.
Proof.
  unfold CricketHeadToHead.process_match, count_match, selected.
  destruct (not_completed_dual m); [reflexivity|].
  destruct (find_players (users m)) as [[me|] [opp|]]; try reflexivity.
  - destruct me, opp; cbn [user_truthy negb orb andb]; try reflexivity.
    now destruct (CricketHeadToHead.classify_match m).
  - now destruct me.
Qed.

Lemma rg_process_count (st : CricketReportGenerator.State) (m : Match) :
  CricketReportGenerator.store (CricketReportGenerator.process_match st m)
  = count_match CricketReportGenerator.classify_match
                (CricketReportGenerator.store st) m.
Proof.
  unfold CricketReportGenerator.process_match, count_match, selected.
  destruct (not_completed_dual m); [reflexivity|].
  destruct (find_players (users m)) as [[me|] [opp|]]; try reflexivity.
  - destruct me, opp; cbn [user_truthy negb orb andb]; try reflexivity.
    now destruct (CricketReportGenerator.classify_match m).
  - now destruct me.
Qed.

Lemma rg_process_skip (st : CricketReportGenerator.State) (m : Match) :
  selected m = None -> CricketReportGenerator.process_match st m = st.
Proof.
  unfold CricketReportGenerator.process_match, selected.
  destruct (not_completed_dual m); [reflexivity|].
  destruct (find_players (users m)) as [[me|] [opp|]]; try reflexivity.
  - destruct me, opp; cbn [user_truthy negb orb andb]; try reflexivity.
    discriminate.
  - now destruct me.
Qed.

Lemma h2h_calculate_count (data : list Match) (st : Store) :
  CricketHeadToHead.calculate_head_to_head data st
  = fold_left (count_match CricketHeadToHead.classify_match) data st.
Proof.
  unfold CricketHeadToHead.calculate_head_to_head.
  revert st. induction data as [|m data IH]; intros st; cbn [fold_left].
  - reflexivity.
  - now rewrite h2h_process_count, IH.
Qed.

Lemma rg_calculate_count (data : list Match) (st : CricketReportGenerator.State) :
  CricketReportGenerator.store
    (CricketReportGenerator.calculate_statistics data st)
  = fold_left (count_match CricketReportGenerator.classify_match) data
              (CricketReportGenerator.store st).
Proof.
  unfold CricketReportGenerator.calculate_statistics.
  revert st. induction data as [|m data IH]; intros st; cbn [fold_left].
  - reflexivity.
  - now rewrite IH, rg_process_count.
Qed.

End Process.

(** ** Contributions add up *)

Section Contributions.

Variable classify : Match -> string * string.

Lemma count_match_global (st : Store) (m : Match) (o : string) :
  global_record (count_match classify st m) o
  = apply_delta (global_delta m o) (global_record st o).
Proof.
  unfold count_match, global_delta.
  destruct (selected m) as [[me opp]|].
  - apply record_result_global.
  - reflexivity.
Qed.

Lemma count_match_bucket (st : Store) (m : Match) (b o : string) :
  bucket_record (count_match classify st m) b o
  = apply_delta (bucket_delta (classify m) m b o) (bucket_record st b o).
Proof.
  unfold count_match, bucket_delta.
  destruct (selected m) as [[me opp]|].
  - apply record_result_bucket.
  - reflexivity.
Qed.

Lemma wf_new_stats : wf_delta new_stats.
Proof. unfold wf_delta; cbn; lia. Qed.

Lemma wf_result_delta (r : option string) : wf_delta (result_delta r).
Proof.
  unfold wf_delta, result_delta; cbn.
  destruct (result_is r "WIN") eqn:W.
  - rewrite (result_is_win_loss _ W). lia.
  - destruct (result_is r "LOSS"); lia.
Qed.

Lemma wf_scale (n : Z) (d : Stats) : 0 <= n -> wf_delta d -> wf_delta (scale_stats n d).
Proof. unfold wf_delta; cbn. intros Hn (Hw & Hl & Ht). repeat split; nia. Qed.

Lemma wf_add (a b : Stats) : wf_delta a -> wf_delta b -> wf_delta (add_stats a b).
Proof. unfold wf_delta; cbn. lia. Qed.

Lemma b2z_nonneg (b : bool) : 0 <= b2z b.
Proof. destruct b; cbn; lia. Qed.

Lemma wf_global_delta (m : Match) (o : string) : wf_delta (global_delta m o).
Proof.
  unfold global_delta. destruct (selected m) as [[me opp]|].
  - apply wf_scale; [apply b2z_nonneg | apply wf_result_delta].
  - apply wf_new_stats.
Qed.

Lemma wf_bucket_delta (cls : string * string) (m : Match) (b o : string) :
  wf_delta (bucket_delta cls m b o).
Proof.
  unfold bucket_delta. destruct (selected m) as [[me opp]|].
  - apply wf_scale; [|apply wf_result_delta].
    pose proof (b2z_nonneg (String.eqb (opponent_name_of opp) o)).
    pose proof (b2z_nonneg (String.eqb (fst cls) b)).
    pose proof (b2z_nonneg (String.eqb (snd cls) b)). nia.
  - apply wf_new_stats.
Qed.

Lemma wf_sum (l : list Stats) : Forall wf_delta l -> wf_delta (sum_stats l).
Proof.
  induction 1 as [|d l Hd Hl IH]; cbn [sum_stats fold_right].
  - apply wf_new_stats.
  - apply wf_add; assumption.
Qed.

Lemma apply_delta_add (d1 d2 : Stats) (r : option Stats) :
  wf_delta d1 -> wf_delta d2 ->
  apply_delta d2 (apply_delta d1 r) = apply_delta (add_stats d1 d2) r.
Proof.
  unfold wf_delta, apply_delta. intros (W1 & L1 & T1) (W2 & L2 & T2).
  cbn [total_matches add_stats].
  destruct (Z.eqb_spec (total_matches d1) 0) as [E1|N1];
    destruct (Z.eqb_spec (total_matches d2) 0) as [E2|N2];
    destruct (Z.eqb_spec (total_matches d1 + total_matches d2) 0) as [E|N];
    try lia; try reflexivity;
    f_equal; apply stats_eq; cbn; lia.
Qed.

Lemma add_stats_comm (a b : Stats) : add_stats a b = add_stats b a.
Proof. apply stats_eq; cbn; lia. Qed.

Lemma add_stats_assoc (a b c : Stats) :
  add_stats a (add_stats b c) = add_stats (add_stats a b) c.
Proof. apply stats_eq; cbn; lia. Qed.

Lemma sum_stats_perm (l l' : list Stats) :
  Permutation l l' -> sum_stats l = sum_stats l'.
Proof.
  unfold sum_stats.
  induction 1 as [| x l l' _ IH | x y l | l l' l'' _ IH1 _ IH2];
    cbn [fold_right].
  - reflexivity.
  - now rewrite IH.
  - rewrite !add_stats_assoc. f_equal. apply add_stats_comm.
  - now rewrite IH1.
Qed.

(** The record of [o] after a run is its record before, with the sum of
    the contributions of the matches. *)
Lemma fold_global (data : list Match) (o : string) :
  forall st,
    global_record (fold_left (count_match classify) data st) o
    = apply_delta (sum_stats (map (fun m => global_delta m o) data))
                  (global_record st o).
Proof.
  induction data as [|m data IH]; intros st; cbn [fold_left map].
  - reflexivity.
  - rewrite IH, count_match_global.
    cbn [sum_stats fold_right]. apply apply_delta_add.
    + apply wf_global_delta.
    + apply wf_sum, Forall_map, Forall_forall. intros; apply wf_global_delta.
Qed.

Lemma fold_bucket (data : list Match) (b o : string) :
  forall st,
    bucket_record (fold_left (count_match classify) data st) b o
    = apply_delta
        (sum_stats (map (fun m => bucket_delta (classify m) m b o) data))
        (bucket_record st b o).
Proof.
  induction data as [|m data IH]; intros st; cbn [fold_left map].
  - reflexivity.
  - rewrite IH, count_match_bucket.
    cbn [sum_stats fold_right]. apply apply_delta_add.
    + apply wf_bucket_delta.
    + apply wf_sum, Forall_map, Forall_forall. intros; apply wf_bucket_delta.
Qed.

(** Order does not matter for any record. *)
Lemma fold_perm (data data' : list Match) (st : Store) :
  Permutation data data' ->
  forall b o,
    global_record (fold_left (count_match classify) data st) o
    = global_record (fold_left (count_match classify) data' st) o
    /\ bucket_record (fold_left (count_match classify) data st) b o
       = bucket_record (fold_left (count_match classify) data' st) b o.
Proof.
  intros P b o. rewrite !fold_global, !fold_bucket. split; f_equal.
  - apply sum_stats_perm, Permutation_map, P.
  - apply sum_stats_perm, Permutation_map, P.
Qed.

End Contributions.

(** ** Which participants are selected *)

Section Players.

Lemma find_players_last (us : list User) :
  find_players us
  = (last_such is_tracked us, last_such (fun u => negb (is_tracked u)) us).
Proof.
  unfold find_players, last_such.
  induction us as [|u us IH] using rev_ind.
  - reflexivity.
  - rewrite fold_left_app, IH, rev_unit. cbn [fold_left find fst snd].
    assert (E : is_tracked u
                = match Dict.get "user_id" u with
                  | Some uid => String.eqb uid player_id
                  | None => false
                  end) by reflexivity.
    destruct (Dict.get "user_id" u) as [uid|]; rewrite E; [|reflexivity].
    now destruct (String.eqb uid player_id).
Qed.

Lemma find_all_false {A : Type} (p : A -> bool) (l : list A) :
  (forall x, In x l -> p x = false) -> find p l = None.
Proof.
  induction l as [|x l IH]; intros H; cbn [find]; [reflexivity|].
  rewrite (H x (or_introl eq_refl)). apply IH. intros y Hy. apply H. now right.
Qed.

Lemma last_such_none {A : Type} (p : A -> bool) (l : list A) :
  (forall x, In x l -> p x = false) -> last_such p l = None.
Proof.
  intros H. apply find_all_false. intros x Hx. apply H. now apply in_rev.
Qed.

Lemma is_tracked_true (u : User) :
  is_tracked u = true <-> Dict.get "user_id" u = Some player_id.
Proof.
  unfold is_tracked. destruct (Dict.get "user_id" u) as [uid|].
  - rewrite String.eqb_eq. split; congruence.
  - split; discriminate.
Qed.

Lemma is_tracked_false (u : User) :
  is_tracked u = false <-> Dict.get "user_id" u <> Some player_id.
Proof.
  rewrite <- is_tracked_true. destruct (is_tracked u); split; congruence.
Qed.

Lemma selected_completed_dual (m : Match) :
  status m = Some "COMPLETED" -> match_mode m = Some "DUAL_PLAYER" ->
  not_completed_dual m = false.
Proof. unfold not_completed_dual. now intros -> ->. Qed.

Lemma not_completed (m : Match) :
  status m <> Some "COMPLETED" -> not_completed_dual m = true.
Proof.
  unfold not_completed_dual. destruct (status m) as [s|]; [|reflexivity].
  destruct (String.eqb_spec s "COMPLETED"); [congruence | reflexivity].
Qed.

Lemma not_dual (m : Match) :
  match_mode m <> Some "DUAL_PLAYER" -> not_completed_dual m = true.
Proof.
  unfold not_completed_dual. destruct (match_mode m) as [s|].
  - destruct (String.eqb_spec s "DUAL_PLAYER"); [congruence|].
    intros _. apply orb_true_r.
  - intros _. apply orb_true_r.
Qed.

(** The four reasons for which a match is passed over. *)
Lemma selected_none (m : Match) :
  status m <> Some "COMPLETED"
  \/ match_mode m <> Some "DUAL_PLAYER"
  \/ (forall u, In u (users m) -> Dict.get "user_id" u <> Some player_id)
  \/ (forall u, In u (users m) -> Dict.get "user_id" u = Some player_id) ->
  selected m = None.
Proof.
  unfold selected. intros [H | [H | [H | H]]].
  - now rewrite (not_completed _ H).
  - now rewrite (not_dual _ H).
  - destruct (not_completed_dual m); [reflexivity|].
    rewrite find_players_last, (last_such_none is_tracked); [reflexivity|].
    intros u Hu. now apply is_tracked_false, H.
  - destruct (not_completed_dual m); [reflexivity|].
    rewrite find_players_last,
      (last_such_none (fun u => negb (is_tracked u))).
    + now destruct (last_such is_tracked (users m)).
    + intros u Hu. apply negb_false_iff, is_tracked_true, H, Hu.
Qed.

Lemma selected_last (m : Match) (me opp : User) :
  status m = Some "COMPLETED" -> match_mode m = Some "DUAL_PLAYER" ->
  last_such is_tracked (users m) = Some me ->
  last_such (fun u => negb (is_tracked u)) (users m) = Some opp ->
  opp <> [] ->
  selected m = Some (me, opp).
Proof.
  intros Hs Hm Hme Hopp Hne. unfold selected.
  rewrite (selected_completed_dual _ Hs Hm), find_players_last, Hme, Hopp.
  apply find_some in Hme. destruct Hme as [_ Hme].
  destruct me as [|x me]; [discriminate|].
  destruct opp as [|y opp]; [congruence | reflexivity].
Qed.

End Players.

(** ** The aggregator *)

Section LabelsDiffer.

Lemma h2h_labels_equal (n : option string) :
  fst (CricketHeadToHead.parse_tournament_type n)
  = snd (CricketHeadToHead.parse_tournament_type n)
  <-> n = Some "Other".
Proof.
  split.
  - unfold CricketHeadToHead.parse_tournament_type.
    destruct (negb (PyStr.truthy n)); [discriminate|].
    destruct (PyStr.contains "iBC PRO 360" _).
    { destruct (1 <? _)%nat; discriminate. }
    destruct (PyStr.contains "iBC 360" _).
    { destruct (1 <? _)%nat; discriminate. }
    destruct n as [s|]; cbn [fst snd]; [congruence|discriminate].
  - intros ->. reflexivity.
Qed.

Lemma rg_labels_equal (n : option string) :
  fst (CricketReportGenerator.parse_tournament_type n)
  = snd (CricketReportGenerator.parse_tournament_type n)
  <-> n = Some "Other".
Proof.
  rewrite <- parse_variants_eq.
  apply h2h_labels_equal.
Qed.

End LabelsDiffer.

Section OneMatch.

Variable classify : Match -> string * string.

(** A counted match whose two labels differ raises the total of three
    records by one each and leaves every other record as it was. *)
Lemma counted_match_records (st : Store) (m : Match) (me opp : User) :
  selected m = Some (me, opp) ->
  fst (classify m) <> snd (classify m) ->
  let st' := count_match classify st m in
  let name := opponent_name_of opp in
  total_of (global_record st' name) = total_of (global_record st name) + 1
  /\ total_of (bucket_record st' (fst (classify m)) name)
     = total_of (bucket_record st (fst (classify m)) name) + 1
  /\ total_of (bucket_record st' (snd (classify m)) name)
     = total_of (bucket_record st (snd (classify m)) name) + 1
  /\ (forall o, o <> name -> global_record st' o = global_record st o)
  /\ (forall b o,
        o <> name \/ (b <> fst (classify m) /\ b <> snd (classify m)) ->
        bucket_record st' b o = bucket_record st b o).
Proof.
  intros Hsel Hne st' name. subst st'.
  assert (G : forall o, global_record (count_match classify st m) o
              = apply_delta (scale_stats (b2z (String.eqb name o))
                               (result_delta (Dict.get "result" me)))
                            (global_record st o)).
  { intros o. rewrite count_match_global. unfold global_delta.
    now rewrite Hsel. }
  assert (B : forall b o, bucket_record (count_match classify st m) b o
              = apply_delta
                  (scale_stats
                     (b2z (String.eqb name o)
                      * (b2z (String.eqb (fst (classify m)) b)
                         + b2z (String.eqb (snd (classify m)) b)))
                     (result_delta (Dict.get "result" me)))
                  (bucket_record st b o)).
  { intros b o. rewrite count_match_bucket. unfold bucket_delta.
    now rewrite Hsel. }
  unfold total_of, apply_delta in *.
  repeat split.
  - rewrite G, String.eqb_refl. cbn. lia.
  - rewrite B, !String.eqb_refl.
    destruct (String.eqb_spec (snd (classify m)) (fst (classify m)));
      [congruence|]. cbn. lia.
  - rewrite B, !String.eqb_refl.
    destruct (String.eqb_spec (fst (classify m)) (snd (classify m)));
      [congruence|]. cbn. lia.
  - intros o Ho. rewrite G.
    destruct (String.eqb_spec name o); [congruence | reflexivity].
  - intros b o [Ho | [H1 H2]]; rewrite B.
    + destruct (String.eqb_spec name o); [congruence | reflexivity].
    + destruct (String.eqb_spec (fst (classify m)) b); [congruence|].
      destruct (String.eqb_spec (snd (classify m)) b); [congruence|].
      now rewrite Z.mul_0_r.
Qed.

End OneMatch.

(** C1. The claim is that every counted match raises the total of exactly
    three records by one each: the global one and one in each of two buckets.
    A match of a tournament called ["Other"] is classified as
    [("Other", "Other")]; its two buckets are one, whose record rises by two,
    so two records are touched and not three. Shown on both classes. *)
Theorem match_named_other_counted_twice :
  let m := Samples.won_in_other in
  let st := CricketHeadToHead.calculate_head_to_head [m] empty_store in
  let st' := CricketReportGenerator.store
               (CricketReportGenerator.calculate_statistics
                  [m] CricketReportGenerator.empty_state) in
  selected m
  = Some (Samples.participant player_id "Prasanna Nivas" "WIN",
          Samples.participant "opp-1" "A" "LOSS")
  /\ CricketHeadToHead.classify_match m = ("Other", "Other")
  /\ CricketReportGenerator.classify_match m = ("Other", "Other")
  /\ global_record st "A" = Some (mkStats 1 0 1)
  /\ bucket_record st "Other" "A" = Some (mkStats 2 0 2)
  /\ tournament_stats st = [("Other", [("A", mkStats 2 0 2)])]
  /\ global_record st' "A" = Some (mkStats 1 0 1)
  /\ bucket_record st' "Other" "A" = Some (mkStats 2 0 2)
  /\ tournament_stats st' = [("Other", [("A", mkStats 2 0 2)])].
Proof. cbv zeta. repeat split. Qed.

(** ** Records after a run from the empty store *)

Section Totals.

Variable classify : Match -> string * string.

Lemma global_delta_other (m : Match) (o : string) :
  total_matches (global_delta m o)
  = wins (global_delta m o) + losses (global_delta m o)
    + b2z (other_result m o).
Proof.
  unfold global_delta, other_result, result_delta.
  destruct (selected m) as [[me opp]|]; [|reflexivity].
  destruct (String.eqb (opponent_name_of opp) o);
    destruct (result_is (Dict.get "result" me) "WIN") eqn:W;
    rewrite ?(result_is_win_loss _ W);
    try destruct (result_is (Dict.get "result" me) "LOSS"); reflexivity.
Qed.

Lemma bucket_delta_other (m : Match) (b o : string) :
  fst (classify m) <> snd (classify m) ->
  total_matches (bucket_delta (classify m) m b o)
  = wins (bucket_delta (classify m) m b o)
    + losses (bucket_delta (classify m) m b o)
    + b2z (other_result m o
           && (String.eqb (fst (classify m)) b
               || String.eqb (snd (classify m)) b)).
Proof.
  intros Hne. unfold bucket_delta, other_result, result_delta.
  destruct (selected m) as [[me opp]|]; [|reflexivity].
  destruct (String.eqb_spec (fst (classify m)) b) as [E1|N1];
    destruct (String.eqb_spec (snd (classify m)) b) as [E2|N2];
    [congruence | | |];
    destruct (String.eqb (opponent_name_of opp) o);
    destruct (result_is (Dict.get "result" me) "WIN") eqn:W;
    rewrite ?(result_is_win_loss _ W);
    try destruct (result_is (Dict.get "result" me) "LOSS"); reflexivity.
Qed.

Lemma count_cons (p : Match -> bool) (m : Match) (data : list Match) :
  Z.of_nat (List.length (filter p (m :: data)))
  = b2z (p m) + Z.of_nat (List.length (filter p data)).
Proof.
  cbn [filter]. destruct (p m); cbn [List.length b2z]; lia.
Qed.

Lemma sum_global_other (data : list Match) (o : string) :
  let d := sum_stats (map (fun m => global_delta m o) data) in
  total_matches d = wins d + losses d + count_other_result data o.
Proof.
  unfold count_other_result.
  induction data as [|m data IH]; [reflexivity|].
  cbn zeta in *. cbn [map sum_stats fold_right].
  rewrite count_cons. fold (sum_stats (map (fun m => global_delta m o) data)).
  cbn [add_stats total_matches wins losses].
  rewrite IH, global_delta_other. lia.
Qed.

Lemma sum_bucket_other (data : list Match) (b o : string) :
  (forall m, In m data -> fst (classify m) <> snd (classify m)) ->
  let d := sum_stats (map (fun m => bucket_delta (classify m) m b o) data) in
  total_matches d = wins d + losses d + count_other_result_in classify data b o.
Proof.
  unfold count_other_result_in.
  induction data as [|m data IH]; intros H; [reflexivity|].
  cbn zeta in *. cbn [map sum_stats fold_right].
  rewrite count_cons.
  fold (sum_stats (map (fun m => bucket_delta (classify m) m b o) data)).
  cbn [add_stats total_matches wins losses].
  rewrite IH, bucket_delta_other.
  - lia.
  - apply H. now left.
  - intros m' Hm'. apply H. now right.
Qed.

Lemma apply_delta_none (d : Stats) (s : Stats) :
  apply_delta d None = Some s -> s = d.
Proof.
  unfold apply_delta. destruct (total_matches d =? 0); [discriminate|].
  intros H. injection H as <-. apply stats_eq; reflexivity.
Qed.

(** In the global aggregate the total is the wins, the losses and the
    matches with another result. *)
Lemma global_total_after_run (data : list Match) (o : string) (s : Stats) :
  global_record (fold_left (count_match classify) data empty_store) o = Some s ->
  total_matches s = wins s + losses s + count_other_result data o.
Proof.
  rewrite fold_global. intros H. apply apply_delta_none in H. subst s.
  apply sum_global_other.
Qed.

(** In every bucket the total is at least the wins and the losses, and
    the counters are not negative. *)
Lemma bucket_total_ge_after_run (data : list Match) (b o : string) (s : Stats) :
  bucket_record (fold_left (count_match classify) data empty_store) b o = Some s ->
  0 <= wins s /\ 0 <= losses s /\ wins s + losses s <= total_matches s.
Proof.
  rewrite fold_bucket. intros H. apply apply_delta_none in H. subst s.
  apply wf_sum, Forall_map, Forall_forall. intros; apply wf_bucket_delta.
Qed.

Lemma global_total_ge_after_run (data : list Match) (o : string) (s : Stats) :
  global_record (fold_left (count_match classify) data empty_store) o = Some s ->
  0 <= wins s /\ 0 <= losses s /\ wins s + losses s <= total_matches s.
Proof.
  rewrite fold_global. intros H. apply apply_delta_none in H. subst s.
  apply wf_sum, Forall_map, Forall_forall. intros; apply wf_global_delta.
Qed.

(** When no match has the same label twice, the equation holds in the
    buckets as well. *)
Lemma bucket_total_after_run (data : list Match) (b o : string) (s : Stats) :
  (forall m, In m data -> fst (classify m) <> snd (classify m)) ->
  bucket_record (fold_left (count_match classify) data empty_store) b o = Some s ->
  total_matches s = wins s + losses s + count_other_result_in classify data b o.
Proof.
  intros Hne. rewrite fold_bucket. intros H. apply apply_delta_none in H.
  subst s. now apply sum_bucket_other.
Qed.

End Totals.

(** C5. The claim is that in every record, of the global aggregate and of
    every bucket, the total is the wins plus the losses plus the number of
    counted matches with another result. A tie in a tournament called
    ["Other"] is one such match, and the record of the bucket ["Other"] has
    a total of two: the equation fails there, for the reason shown for C1.
    The inequality holds, see [bucket_total_ge_after_run]. *)
Theorem other_bucket_total_exceeds_matches :
  let data := [Samples.tied_in_other] in
  let st := CricketHeadToHead.calculate_head_to_head data empty_store in
  let st' := CricketReportGenerator.store
               (CricketReportGenerator.calculate_statistics
                  data CricketReportGenerator.empty_state) in
  bucket_record st "Other" "A" = Some (mkStats 0 0 2)
  /\ count_other_result_in CricketHeadToHead.classify_match data "Other" "A" = 1
  /\ bucket_record st' "Other" "A" = Some (mkStats 0 0 2)
  /\ count_other_result_in CricketReportGenerator.classify_match data "Other" "A" = 1
  /\ global_record st "A" = Some (mkStats 0 0 1)
  /\ count_other_result data "A" = 1
  /\ (2 =? 0 + 0 + 1) = false.
Proof. cbv zeta. repeat split. Qed.

(** C9. The records of the global aggregate and of every bucket are the
    same after a run over a list of matches and after a run over any
    permutation of it, from any store, in both classes. *)
Theorem aggregation_order_independent (data data' : list Match) :
  Permutation data data' ->
  forall (st : Store) (gst : CricketReportGenerator.State) (b o : string),
    global_record (CricketHeadToHead.calculate_head_to_head data st) o
    = global_record (CricketHeadToHead.calculate_head_to_head data' st) o
    /\ bucket_record (CricketHeadToHead.calculate_head_to_head data st) b o
       = bucket_record (CricketHeadToHead.calculate_head_to_head data' st) b o
    /\ global_record
         (CricketReportGenerator.store
            (CricketReportGenerator.calculate_statistics data gst)) o
       = global_record
           (CricketReportGenerator.store
              (CricketReportGenerator.calculate_statistics data' gst)) o
    /\ bucket_record
         (CricketReportGenerator.store
            (CricketReportGenerator.calculate_statistics data gst)) b o
       = bucket_record
           (CricketReportGenerator.store
              (CricketReportGenerator.calculate_statistics data' gst)) b o.
Proof.
  intros P st gst b o.
  rewrite !h2h_calculate_count, !rg_calculate_count.
  destruct (fold_perm CricketHeadToHead.classify_match data data' st P b o).
  destruct (fold_perm CricketReportGenerator.classify_match data data'
              (CricketReportGenerator.store gst) P b o).
  auto.
Qed.

Lemma aggregation_order_independent_witness :
  Permutation [Samples.won_in_other; Samples.other_cup]
              [Samples.other_cup; Samples.won_in_other]
  /\ bucket_record
       (CricketHeadToHead.calculate_head_to_head
          [Samples.won_in_other; Samples.other_cup] empty_store) "Other" "A"
     = bucket_record
         (CricketHeadToHead.calculate_head_to_head
            [Samples.other_cup; Samples.won_in_other] empty_store) "Other" "A".
Proof.
  split; [apply perm_swap|].
  apply (aggregation_order_independent
           [Samples.won_in_other; Samples.other_cup]
           [Samples.other_cup; Samples.won_in_other]
           (perm_swap _ _ _) empty_store CricketReportGenerator.empty_state
           "Other" "A").
Defined.

(** C6. A match that is not completed, or not in two-player mode, or has no
    participant with the tracked id, or has no participant with another id,
    leaves the whole state as it was: the three aggregates, and in the report
    generator the pictures too. *)
Theorem skipped_match_changes_nothing (m : Match) :
  status m <> Some "COMPLETED"
  \/ match_mode m <> Some "DUAL_PLAYER"
  \/ (forall u, In u (users m) -> Dict.get "user_id" u <> Some player_id)
  \/ (forall u, In u (users m) -> Dict.get "user_id" u = Some player_id) ->
  (forall st : Store, CricketHeadToHead.process_match st m = st)
  /\ (forall st : CricketReportGenerator.State,
        CricketReportGenerator.process_match st m = st).
Proof.
  intros H. apply selected_none in H. split; intros st.
  - rewrite h2h_process_count. unfold count_match. now rewrite H.
  - now apply rg_process_skip.
Qed.

Lemma skipped_match_changes_nothing_witness :
  status Samples.in_progress <> Some "COMPLETED"
  /\ (forall st : Store,
        CricketHeadToHead.process_match st Samples.in_progress = st)
  /\ (forall st : CricketReportGenerator.State,
        CricketReportGenerator.process_match st Samples.in_progress = st).
Proof.
  assert (H : status Samples.in_progress <> Some "COMPLETED") by discriminate.
  split; [exact H|].
  exact (skipped_match_changes_nothing Samples.in_progress (or_introl H)).
Defined.

(** C10, the claim as stated, fails: a completed two-player match with three
    participants is passed over when none of them has the tracked id, and
    also when the last participant with another id is an empty record. *)
Lemma three_participants_skipped_counterexample :
  status Samples.three_strangers = Some "COMPLETED"
  /\ match_mode Samples.three_strangers = Some "DUAL_PLAYER"
  /\ List.length (users Samples.three_strangers) = 3%nat
  /\ (forall st : Store,
        CricketHeadToHead.process_match st Samples.three_strangers = st)
  /\ (forall st : CricketReportGenerator.State,
        CricketReportGenerator.process_match st Samples.three_strangers = st)
  /\ (forall st : Store,
        CricketHeadToHead.process_match st
          (mkMatch (Some "COMPLETED") (Some "DUAL_PLAYER")
                   (users Samples.three_way ++ [[]]) None None) = st).
Proof. repeat split. Qed.

(** C10, amended. In a completed two-player match with more than two
    participants, of which one has the tracked id and the last one with
    another id is not an empty record, the match is counted: with the last
    participant that has the tracked id as self and the last one with another
    id as opponent, once in the global record of that opponent's name, and in
    no record of another name. Both classes. *)
Theorem last_participants_counted (m : Match) (me opp : User) :
  status m = Some "COMPLETED" ->
  match_mode m = Some "DUAL_PLAYER" ->
  (2 < List.length (users m))%nat ->
  last_such is_tracked (users m) = Some me ->
  last_such (fun u => negb (is_tracked u)) (users m) = Some opp ->
  opp <> [] ->
  forall (st : Store) (gst : CricketReportGenerator.State),
    let name := opponent_name_of opp in
    let st1 := CricketHeadToHead.process_match st m in
    let st2 := CricketReportGenerator.store
                 (CricketReportGenerator.process_match gst m) in
    st1 = record_result name (Dict.get "result" me)
            (fst (CricketHeadToHead.classify_match m))
            (snd (CricketHeadToHead.classify_match m)) st
    /\ st2 = record_result name (Dict.get "result" me)
               (fst (CricketReportGenerator.classify_match m))
               (snd (CricketReportGenerator.classify_match m))
               (CricketReportGenerator.store gst)
    /\ total_of (global_record st1 name) = total_of (global_record st name) + 1
    /\ total_of (global_record st2 name)
       = total_of (global_record (CricketReportGenerator.store gst) name) + 1
    /\ (forall b o, o <> name ->
          global_record st1 o = global_record st o
          /\ bucket_record st1 b o = bucket_record st b o
          /\ global_record st2 o
             = global_record (CricketReportGenerator.store gst) o
          /\ bucket_record st2 b o
             = bucket_record (CricketReportGenerator.store gst) b o).
Proof.
  intros Hs Hm _ Hme Hopp Hne st gst name st1 st2.
  pose proof (selected_last m me opp Hs Hm Hme Hopp Hne) as Hsel.
  assert (E1 : st1 = record_result name (Dict.get "result" me)
                 (fst (CricketHeadToHead.classify_match m))
                 (snd (CricketHeadToHead.classify_match m)) st).
  { subst st1. rewrite h2h_process_count. unfold count_match.
    now rewrite Hsel. }
  assert (E2 : st2 = record_result name (Dict.get "result" me)
                 (fst (CricketReportGenerator.classify_match m))
                 (snd (CricketReportGenerator.classify_match m))
                 (CricketReportGenerator.store gst)).
  { subst st2. rewrite rg_process_count. unfold count_match.
    now rewrite Hsel. }
  split; [exact E1|]. split; [exact E2|].
  rewrite E1, E2. unfold total_of.
  repeat split.
  - rewrite record_result_global, String.eqb_refl.
    unfold apply_delta. cbn. lia.
  - rewrite record_result_global, String.eqb_refl.
    unfold apply_delta. cbn. lia.
  - rewrite record_result_global.
    destruct (String.eqb_spec name o); [congruence | reflexivity].
  - rewrite record_result_bucket.
    destruct (String.eqb_spec name o); [congruence | reflexivity].
  - rewrite record_result_global.
    destruct (String.eqb_spec name o); [congruence | reflexivity].
  - rewrite record_result_bucket.
    destruct (String.eqb_spec name o); [congruence | reflexivity].
Qed.

Lemma last_participants_counted_witness :
  CricketHeadToHead.process_match empty_store Samples.three_way
  = record_result "B" (Some "WIN") "Other" "Weekly Cup" empty_store
  /\ total_of (global_record
                 (CricketHeadToHead.process_match empty_store Samples.three_way)
                 "B") = 1
  /\ global_record
       (CricketHeadToHead.process_match empty_store Samples.three_way) "A"
     = None.
Proof.
  pose proof (last_participants_counted Samples.three_way
                (Samples.participant player_id "Prasanna Nivas" "WIN")
                (Samples.participant "opp-2" "B" "LOSS")
                eq_refl eq_refl) as H.
  cbn [users Samples.three_way List.length] in H.
  specialize (H ltac:(lia) eq_refl eq_refl ltac:(discriminate)
                empty_store CricketReportGenerator.empty_state).
  cbv zeta in H.
  destruct H as (E1 & _ & T1 & _ & O).
  split; [exact E1|]. split; [exact T1|].
  exact (proj1 (O "Other" "A" ltac:(discriminate))).
Defined.

(** C4, the claim as stated, fails in both classes: [calculate_head_to_head]
    classifies a match whose name is only on the nested path as
    [("Other", "Unknown")], and [calculate_statistics] does the same with a
    match whose name is only at the top level. *)
Lemma no_fallback_path_counterexample :
  tournament_name Samples.nested_only = None
  /\ CricketReportGenerator.resolve_tournament_name Samples.nested_only
     = "iBC 360 - 250 Blitz"
  /\ CricketHeadToHead.parse_tournament_type (Some "iBC 360 - 250 Blitz")
     = ("iBC 360", "iBC 360 - 250")
  /\ CricketHeadToHead.classify_match Samples.nested_only = ("Other", "Unknown")
  /\ tournament_types
       (CricketHeadToHead.calculate_head_to_head [Samples.nested_only] empty_store)
     = ["Other"]
  /\ tournament_name Samples.top_only = Some "iBC 360 - 250 Blitz"
  /\ CricketReportGenerator.classify_match Samples.top_only = ("Other", "Unknown")
  /\ tournament_types
       (CricketReportGenerator.store
          (CricketReportGenerator.calculate_statistics
             [Samples.top_only] CricketReportGenerator.empty_state))
     = ["Other"].
Proof. repeat split. Qed.

(** C4, amended. Each class reads the tournament name on one path and
    takes ["Unknown"] when it is missing there; neither falls back to the
    other path. Two records that agree on status, mode and participants are
    processed alike by [calculate_head_to_head] as soon as they agree on the
    top-level field, and by [calculate_statistics] as soon as they agree on
    the nested path. A name that is only on the nested path is used by
    [calculate_statistics] alone; [calculate_head_to_head] then classifies
    the match as [("Other", "Unknown")]. *)
Theorem tournament_name_single_path (m m' : Match) :
  status m = status m' ->
  match_mode m = match_mode m' ->
  users m = users m' ->
  (tournament_name m = tournament_name m' ->
   forall st : Store,
     CricketHeadToHead.process_match st m = CricketHeadToHead.process_match st m')
  /\ (tournament_match_details m = tournament_match_details m' ->
      forall st : CricketReportGenerator.State,
        CricketReportGenerator.process_match st m
        = CricketReportGenerator.process_match st m')
  /\ (tournament_name m = None ->
      CricketHeadToHead.classify_match m = ("Other", "Unknown"))
  /\ (forall n, tournament_name m = Some n ->
        CricketHeadToHead.classify_match m
        = CricketHeadToHead.parse_tournament_type (Some n))
  /\ (forall n, tournament_match_details m = nested_name n ->
        CricketReportGenerator.classify_match m
        = CricketReportGenerator.parse_tournament_type (Some n))
  /\ (CricketReportGenerator.resolve_tournament_name m = "Unknown"
      \/ exists n, tournament_match_details m = nested_name n
                   /\ CricketReportGenerator.resolve_tournament_name m = n).
Proof.
  intros Hs Hm Hu. repeat split.
  - intros Ht st. unfold CricketHeadToHead.process_match, not_completed_dual,
      CricketHeadToHead.classify_match,
      CricketHeadToHead.resolve_tournament_name.
    now rewrite Hs, Hm, Hu, Ht.
  - intros Ht st. unfold CricketReportGenerator.process_match,
      not_completed_dual, CricketReportGenerator.classify_match,
      CricketReportGenerator.resolve_tournament_name.
    now rewrite Hs, Hm, Hu, Ht.
  - intros Ht. unfold CricketHeadToHead.classify_match,
      CricketHeadToHead.resolve_tournament_name. now rewrite Ht.
  - intros n Ht. unfold CricketHeadToHead.classify_match,
      CricketHeadToHead.resolve_tournament_name. now rewrite Ht.
  - intros n Ht. unfold CricketReportGenerator.classify_match,
      CricketReportGenerator.resolve_tournament_name. now rewrite Ht.
  - unfold CricketReportGenerator.resolve_tournament_name, nested_name.
    destruct (tournament_match_details m) as [[[[[n|]]|]]|]; auto.
    right. exists n. now split.
Qed.

Lemma tournament_name_single_path_witness :
  (forall st : Store,
     CricketHeadToHead.process_match st Samples.nested_only
     = CricketHeadToHead.process_match st (with_names Samples.nested_only None None))
  /\ CricketHeadToHead.classify_match Samples.nested_only = ("Other", "Unknown")
  /\ CricketReportGenerator.classify_match Samples.nested_only
     = ("iBC 360", "iBC 360 - 250").
Proof.
  destruct (tournament_name_single_path
              Samples.nested_only (with_names Samples.nested_only None None)
              eq_refl eq_refl eq_refl) as (H1 & _ & H3 & _ & H5 & _).
  split; [exact (H1 eq_refl)|].
  split; [exact (H3 eq_refl)|].
  exact (H5 "iBC 360 - 250 Blitz" eq_refl).
Defined.

(** ** [sorted] *)

Section Sorting.

Lemma str_le_trans (a : string) :
  forall b c, str_le a b -> str_le b c -> str_le a c.
Proof.
  unfold str_le, String.leb.
  induction a as [|x a IH]; intros [|y b] [|z c];
    cbn [String.compare]; try discriminate; try reflexivity.
  intros H1 H2.
  destruct (Ascii.compare x y) eqn:Exy; try discriminate;
    destruct (Ascii.compare y z) eqn:Eyz; try discriminate.
  - apply Ascii.compare_eq_iff in Exy. subst y. rewrite Eyz.
    now apply (IH b c).
  - apply Ascii.compare_eq_iff in Exy. subst y. now rewrite Eyz.
  - apply Ascii.compare_eq_iff in Eyz. subst z. now rewrite Exy.
  - assert (E : Ascii.compare x z = Lt).
    { unfold Ascii.compare in *. rewrite N.compare_lt_iff in *.
      now apply N.lt_trans with (N_of_ascii y). }
    now rewrite E.
Qed.

Lemma insert_sorted_perm (x : string) (l : list string) :
  Permutation (PyStr.insert_sorted x l) (x :: l).
Proof.
  induction l as [|y l IH]; cbn [PyStr.insert_sorted]; [reflexivity|].
  destruct (String.leb y x); [|reflexivity].
  rewrite IH. apply perm_swap.
Qed.

Lemma insert_sorted_hd (x a : string) (l : list string) :
  str_le a x -> HdRel str_le a l -> HdRel str_le a (PyStr.insert_sorted x l).
Proof.
  intros Hax H. destruct l as [|y l]; cbn [PyStr.insert_sorted].
  - now constructor.
  - inversion H; subst. destruct (String.leb y x); now constructor.
Qed.

Lemma insert_sorted_sorted (x : string) (l : list string) :
  Sorted str_le l -> Sorted str_le (PyStr.insert_sorted x l).
Proof.
  induction 1 as [|y l Hl IH Hy]; cbn [PyStr.insert_sorted].
  - repeat constructor.
  - destruct (String.leb y x) eqn:E.
    + constructor; [exact IH|]. now apply insert_sorted_hd.
    + constructor; [now constructor|]. constructor.
      destruct (String.leb_total x y) as [H|H]; [exact H | congruence].
Qed.

Lemma sorted_fold (l : list string) :
  forall acc,
    Sorted str_le acc ->
    Sorted str_le (fold_left (fun a x => PyStr.insert_sorted x a) l acc)
    /\ Permutation (fold_left (fun a x => PyStr.insert_sorted x a) l acc)
                   (acc ++ l).
Proof.
  induction l as [|x l IH]; intros acc H; cbn [fold_left].
  - rewrite app_nil_r. now split.
  - destruct (IH _ (insert_sorted_sorted x acc H)) as [S P]. split; [exact S|].
    rewrite P, insert_sorted_perm. apply Permutation_middle.
Qed.

Lemma sorted_spec (l : list string) :
  StronglySorted str_le (PyStr.sorted l) /\ Permutation (PyStr.sorted l) l.
Proof.
  destruct (sorted_fold l [] (Sorted_nil _)) as [S P]. split; [|exact P].
  apply Sorted_StronglySorted; [|exact S].
  intros a b c. apply str_le_trans.
Qed.

Lemma prefix_cons (a b : ascii) (p s : string) :
  prefix (String a p) (String b s)
  = if ascii_dec a b then prefix p s else false.
Proof. reflexivity. Qed.

Lemma contains_of_prefix (needle s : string) :
  prefix needle s = true -> PyStr.contains needle s = true.
Proof.
  destruct s as [|c s]; cbn [PyStr.contains]; [trivial|].
  now intros ->.
Qed.

(** A label that begins with [m] followed by the separator begins with
    [m] and contains the separator. *)
Lemma startswith_append (m sep : string) :
  forall s,
    PyStr.startswith s (m ++ sep) = true ->
    PyStr.startswith s m = true /\ PyStr.contains sep s = true.
Proof.
  unfold PyStr.startswith.
  induction m as [|a m IH]; intros s H; cbn [append] in H.
  - split; [now destruct s | now apply contains_of_prefix].
  - destruct s as [|b s]; [discriminate|].
    rewrite prefix_cons in *. destruct (ascii_dec a b); [|discriminate].
    destruct (IH s H) as [H1 H2]. split; [exact H1|].
    cbn [PyStr.contains]. rewrite H2. apply orb_true_r.
Qed.

End Sorting.

(** C7, the claim as stated, fails: after a match of the tournament
    ["Other Cup - Finals"], the subtypes of ["Other"] hold that label, which
    starts with ["Other"] and has the separator further on, not right after
    ["Other"]. *)
Lemma subtypes_separator_elsewhere_counterexample :
  let st := CricketHeadToHead.calculate_head_to_head [Samples.other_cup] empty_store in
  Dict.keys (tournament_stats st) = ["Other"; "Other Cup - Finals"]
  /\ get_tournament_subtypes "Other" st = ["Other Cup - Finals"]
  /\ PyStr.startswith "Other Cup - Finals" ("Other" ++ " - ") = false.
Proof. repeat split. Qed.

(** C7, amended. [get_tournament_subtypes] returns, in lexicographic
    order, exactly the bucket labels that start with the main type and
    contain the separator [" - "] somewhere; among them are all the labels
    that begin with the main type followed by the separator. *)
Theorem subtypes_start_and_contain (main_type : string) (st : Store) :
  let labels := Dict.keys (tournament_stats st) in
  let r := get_tournament_subtypes main_type st in
  (forall x, In x r <->
             In x labels
             /\ PyStr.startswith x main_type = true
             /\ PyStr.contains " - " x = true)
  /\ StronglySorted (fun a b => String.leb a b = true) r
  /\ Permutation r
       (filter (fun x => PyStr.startswith x main_type && PyStr.contains " - " x)
               labels)
  /\ (forall x, In x labels ->
                PyStr.startswith x (main_type ++ " - ") = true -> In x r).
Proof.
  intros labels r. subst r. unfold get_tournament_subtypes. fold labels.
  destruct (sorted_spec
              (filter (fun x => PyStr.startswith x main_type
                                && PyStr.contains " - " x) labels)) as [S P].
  assert (M : forall x,
             In x (PyStr.sorted
                     (filter (fun x => PyStr.startswith x main_type
                                       && PyStr.contains " - " x) labels))
             <-> In x labels /\ PyStr.startswith x main_type = true
                 /\ PyStr.contains " - " x = true).
  { intros x. split.
    - intros H. apply (Permutation_in _ P) in H. apply filter_In in H.
      destruct H as [H1 H2]. apply andb_true_iff in H2. tauto.
    - intros (H1 & H2 & H3). apply (Permutation_in _ (Permutation_sym P)).
      apply filter_In. split; [exact H1|]. now rewrite H2, H3. }
  repeat split; try apply M; try assumption.
  - intros x Hx Hs. apply M. apply startswith_append in Hs. tauto.
Qed.

Lemma subtypes_start_and_contain_witness :
  In "Other Cup - Finals"
     (get_tournament_subtypes "Other Cup"
        (CricketHeadToHead.calculate_head_to_head [Samples.other_cup] empty_store)).
Proof.
  apply (subtypes_start_and_contain "Other Cup"
           (CricketHeadToHead.calculate_head_to_head [Samples.other_cup] empty_store)).
  - cbn. right. left. reflexivity.
  - reflexivity.
Defined.

(** ** [find_best_opponent] *)

Section BestOpponent.

Lemma Qgtb_true (a b : Q) : Qgtb a b = true <-> (b < a)%Q.
Proof.
  unfold Qgtb. rewrite Qlt_alt, <- (Qcompare_antisym a b).
  destruct (Qcompare a b); cbn; split; congruence.
Qed.

Lemma Qgtb_false (a b : Q) : Qgtb a b = false <-> (a <= b)%Q.
Proof.
  unfold Qgtb. rewrite Qle_alt.
  destruct (Qcompare a b); split; congruence.
Qed.

Lemma win_rate_above_start (s : Stats) :
  0 <= wins s -> 2 <= total_matches s -> (inject_Z (-1) < win_rate s)%Q.
Proof.
  intros Hw Ht. apply Qlt_le_trans with (inject_Z 0); [reflexivity|].
  unfold win_rate. apply Qle_shift_div_l.
  - change 0%Q with (inject_Z 0). rewrite <- Zlt_Qlt. lia.
  - rewrite Qmult_0_l. change 0%Q with (inject_Z 0). now rewrite <- Zle_Qle.
Qed.

Lemma best_loop_snoc (d : Dict.t Stats) (x : string * Stats) :
  best_loop (d ++ [x]) = best_step (best_loop d) x.
Proof. unfold best_loop. now rewrite fold_left_app. Qed.

(** What the loop of [find_best_opponent] leaves in [best_opponent] and
    [best_win_rate]: nothing when no record has two matches, else the first
    record, in iteration order, whose win rate no record with two matches
    exceeds. *)
Lemma best_loop_first_max (d : Dict.t Stats) :
  (forall k s, In (k, s) d -> 0 <= wins s) ->
  match fst (best_loop d) with
  | None =>
      snd (best_loop d) = inject_Z (-1)
      /\ forall k s, In (k, s) d -> total_matches s < 2
  | Some o =>
      exists d1 s d2,
        d = (d1 ++ (o, s) :: d2)%list
        /\ 2 <= total_matches s
        /\ snd (best_loop d) = win_rate s
        /\ (forall k' s', In (k', s') d1 -> 2 <= total_matches s' ->
                          (win_rate s' < win_rate s)%Q)
        /\ (forall k' s', In (k', s') d2 -> 2 <= total_matches s' ->
                          (win_rate s' <= win_rate s)%Q)
  end.
Proof.
  induction d as [|[k s] d IH] using rev_ind; intros Hw.
  - cbn. split; [reflexivity | tauto].
  - assert (Hw' : forall k s, In (k, s) d -> 0 <= wins s).
    { intros k0 s0 H0. apply (Hw k0 s0), in_or_app. now left. }
    specialize (IH Hw'). rewrite best_loop_snoc.
    unfold best_step. fold (win_rate s).
    destruct (Z.leb_spec 2 (total_matches s)) as [Ht|Ht].
    + destruct (best_loop d) as [[o|] r]; cbn [fst snd] in *.
      * destruct IH as (d1 & s0 & d2 & -> & Ht0 & -> & Hb & Ha).
        destruct (Qgtb (win_rate s) (win_rate s0)) eqn:G; cbn [fst snd].
        -- apply Qgtb_true in G.
           exists (d1 ++ (o, s0) :: d2)%list, s, [].
           repeat split; try assumption; [|intros ? ? []].
           intros k' s' Hin Ht'. apply in_app_or in Hin.
           destruct Hin as [Hin | [Hin | Hin]].
           ++ apply Qlt_trans with (win_rate s0); [now apply (Hb k')|exact G].
           ++ injection Hin as <- <-. exact G.
           ++ apply Qle_lt_trans with (win_rate s0); [now apply (Ha k')|exact G].
        -- apply Qgtb_false in G.
           exists d1, s0, (d2 ++ [(k, s)])%list.
           repeat split; try assumption.
           ++ now rewrite <- app_assoc.
           ++ intros k' s' Hin Ht'. apply in_app_or in Hin.
              destruct Hin as [Hin | [Hin | []]]; [now apply (Ha k')|].
              injection Hin as <- <-. exact G.
      * destruct IH as [-> Hnone].
        assert (G : Qgtb (win_rate s) (inject_Z (-1)) = true).
        { apply Qgtb_true, win_rate_above_start; [|exact Ht].
          apply (Hw k s), in_or_app. right. now left. }
        rewrite G. cbn [fst snd].
        exists d, s, []. repeat split; try assumption; [|intros ? ? []].
        intros k' s' Hin Ht'. specialize (Hnone k' s' Hin). lia.
    + destruct (best_loop d) as [[o|] r]; cbn [fst snd] in *.
      * destruct IH as (d1 & s0 & d2 & -> & Ht0 & -> & Hb & Ha).
        exists d1, s0, (d2 ++ [(k, s)])%list.
        repeat split; try assumption.
        -- now rewrite <- app_assoc.
        -- intros k' s' Hin Ht'. apply in_app_or in Hin.
           destruct Hin as [Hin | [Hin | []]]; [now apply (Ha k')|].
           injection Hin as <- <-. lia.
      * destruct IH as [-> Hnone]. split; [reflexivity|].
        intros k' s' Hin. apply in_app_or in Hin.
        destruct Hin as [Hin | [Hin | []]]; [now apply (Hnone k')|].
        injection Hin as <- <-. exact Ht.
Qed.

(** The report is what the loop found, unless that name is empty. *)
Lemma find_best_opponent_reports (st : Store) (c : ascii) (o : string) :
  fst (best_loop (head_to_head_stats st)) = Some (String c o) ->
  find_best_opponent st
  = Some (String c o, snd (best_loop (head_to_head_stats st))).
Proof.
  unfold find_best_opponent.
  destruct (best_loop (head_to_head_stats st)) as [b r]. cbn [fst snd].
  now intros ->.
Qed.

Lemma find_best_opponent_none (st : Store) :
  (forall k s, In (k, s) (head_to_head_stats st) -> 0 <= wins s) ->
  (forall k s, In (k, s) (head_to_head_stats st) -> total_matches s < 2) ->
  find_best_opponent st = None.
Proof.
  intros Hw Hnone. pose proof (best_loop_first_max _ Hw) as H.
  unfold find_best_opponent.
  destruct (best_loop (head_to_head_stats st)) as [[o|] r]; cbn [fst snd] in H.
  - destruct H as (d1 & s & d2 & E & Ht & _).
    specialize (Hnone o s). rewrite E in Hnone.
    specialize (Hnone (in_elt _ _ _)). lia.
  - reflexivity.
Qed.

End BestOpponent.

(** C8. The claim is that [find_best_opponent] gives the opponent with the
    highest win rate among those met at least twice, the first one on a tie,
    and none only when no opponent was met twice. After two wins against an
    opponent whose name is the empty string, the loop finds that opponent, the
    only one, with two matches; the test [if best_opponent:] then takes the
    empty name for no opponent, and nothing is reported. What the loop itself
    computes is as claimed, see [best_loop_first_max]. *)
Theorem nameless_best_opponent_not_reported :
  let data := [Samples.won_against_nameless; Samples.won_against_nameless] in
  let st := CricketHeadToHead.calculate_head_to_head data empty_store in
  head_to_head_stats st = [("", mkStats 2 0 2)]
  /\ best_loop (head_to_head_stats st) = (Some "", win_rate (mkStats 2 0 2))
  /\ find_best_opponent st = None.
Proof. cbv zeta. repeat split. Qed.

(** ** The labels of an aggregated store *)

Section Labels.

Variable classify : Match -> string * string.

Lemma keys_bump (f : Stats -> Stats) (b o : string) (ts : Dict.t (Dict.t Stats))
    (k : string) :
  In k (Dict.keys (bump_bucket f b o ts)) -> In k (Dict.keys ts) \/ k = b.
Proof.
  unfold bump_bucket. rewrite keys_update.
  destruct (Dict.mem b ts); [now left|].
  intros H. apply in_app_or in H. destruct H as [H | [H | []]]; auto.
Qed.

Lemma keys_record_result (o : string) (r : option string) (mt sub : string)
    (st : Store) (k : string) :
  In k (Dict.keys (tournament_stats (record_result o r mt sub st))) ->
  In k (Dict.keys (tournament_stats st)) \/ k = mt \/ k = sub.
Proof.
  unfold record_result.
  destruct (result_is r "WIN"); [| destruct (result_is r "LOSS")];
    cbn [tournament_stats]; intros H;
    repeat (apply keys_bump in H; destruct H as [H | H]; [|now auto]);
    now left.
Qed.

Lemma keys_count_match (st : Store) (m : Match) (k : string) :
  In k (Dict.keys (tournament_stats (count_match classify st m))) ->
  In k (Dict.keys (tournament_stats st))
  \/ k = fst (classify m) \/ k = snd (classify m).
Proof.
  unfold count_match. destruct (selected m) as [[me opp]|].
  - apply keys_record_result.
  - now left.
Qed.

Lemma keys_fold (data : list Match) (k : string) :
  forall st,
    In k (Dict.keys (tournament_stats (fold_left (count_match classify) data st))) ->
    In k (Dict.keys (tournament_stats st))
    \/ exists m, In m data /\ (k = fst (classify m) \/ k = snd (classify m)).
Proof.
  induction data as [|m data IH]; intros st H; cbn [fold_left] in H.
  - now left.
  - apply IH in H. destruct H as [H | (m' & Hin & Hk)].
    + apply keys_count_match in H. destruct H as [H | H]; [now left|].
      right. exists m. split; [now left | exact H].
    + right. exists m'. split; [now right | exact Hk].
Qed.

End Labels.

Section IbcLabels.

(** A label the classifier produces, if it starts with one of the two iBC
    main types and contains the separator, has the separator right after the
    main type. *)
Lemma label_separator_follows (n : option string) (l m : string) :
  m = "iBC PRO 360" \/ m = "iBC 360" ->
  l = fst (CricketHeadToHead.parse_tournament_type n)
  \/ l = snd (CricketHeadToHead.parse_tournament_type n) ->
  PyStr.startswith l m = true ->
  PyStr.contains " - " l = true ->
  PyStr.startswith l (m ++ " - ") = true.
Proof.
  unfold CricketHeadToHead.parse_tournament_type, PyStr.startswith.
  intros Hm Hl Hs Hc.
  destruct (negb (PyStr.truthy n)).
  { cbn [fst snd] in Hl.
    destruct Hm as [-> | ->], Hl as [-> | ->]; discriminate. }
  destruct (PyStr.contains "iBC PRO 360" _) eqn:C1.
  { destruct (1 <? _)%nat; cbn [fst snd] in Hl;
      destruct Hm as [-> | ->], Hl as [-> | ->];
      try discriminate; try reflexivity;
      try (destruct (hd "" _); reflexivity);
      cbv in Hs; discriminate. }
  destruct (PyStr.contains "iBC 360" _) eqn:C2.
  { destruct (1 <? _)%nat; cbn [fst snd] in Hl;
      destruct Hm as [-> | ->], Hl as [-> | ->];
      try discriminate; try reflexivity;
      try (destruct (hd "" _); reflexivity);
      cbv in Hs; discriminate. }
  cbn [fst snd] in Hl.
  destruct Hl as [-> | ->].
  { destruct Hm as [-> | ->]; discriminate. }
  destruct n as [s|].
  - apply contains_of_prefix in Hs. destruct Hm as [-> | ->]; congruence.
  - destruct Hm as [-> | ->]; discriminate.
Qed.

(** On a store that [calculate_head_to_head] built from the empty one, the
    subtypes of the two iBC main types are exactly the labels that begin with
    the main type followed by the separator. *)
Lemma subtypes_of_ibc_types (data : list Match) (m x : string) :
  m = "iBC PRO 360" \/ m = "iBC 360" ->
  let st := CricketHeadToHead.calculate_head_to_head data empty_store in
  In x (get_tournament_subtypes m st)
  <-> In x (Dict.keys (tournament_stats st))
      /\ PyStr.startswith x (m ++ " - ") = true.
Proof.
  intros Hm st.
  assert (M : In x (get_tournament_subtypes m st)
              <-> In x (Dict.keys (tournament_stats st))
                  /\ PyStr.startswith x m = true
                  /\ PyStr.contains " - " x = true).
  { unfold get_tournament_subtypes.
    destruct (sorted_spec
                (filter (fun t => PyStr.startswith t m && PyStr.contains " - " t)
                        (Dict.keys (tournament_stats st)))) as [_ P].
    split.
    - intros H. apply (Permutation_in _ P) in H. apply filter_In in H.
      destruct H as [H1 H2]. apply andb_true_iff in H2. tauto.
    - intros (H1 & H2 & H3). apply (Permutation_in _ (Permutation_sym P)).
      apply filter_In. split; [exact H1|]. now rewrite H2, H3. }
  rewrite M. split.
  - intros (Hk & Hs & Hc). split; [exact Hk|].
    subst st. rewrite h2h_calculate_count in Hk.
    apply keys_fold in Hk. destruct Hk as [[] | (m' & _ & Hl)].
    now apply (label_separator_follows
                 (Some (CricketHeadToHead.resolve_tournament_name m')) x m).
  - intros (Hk & Hs). apply startswith_append in Hs. tauto.
Qed.

End IbcLabels.

(** ** The scenarios of the specification *)

Example classify_weekly_cup :
  CricketHeadToHead.parse_tournament_type (Some "Weekly Cup") = ("Other", "Weekly Cup")
  /\ CricketReportGenerator.parse_tournament_type (Some "Weekly Cup")
     = ("Other", "Weekly Cup").
Proof. split; reflexivity. Qed.

Example classify_empty_or_absent :
  CricketHeadToHead.parse_tournament_type (Some "") = ("Other", "Unknown")
  /\ CricketHeadToHead.parse_tournament_type None = ("Other", "Unknown")
  /\ CricketReportGenerator.parse_tournament_type (Some "") = ("Other", "Unknown")
  /\ CricketReportGenerator.parse_tournament_type None = ("Other", "Unknown").
Proof. repeat split. Qed.

Example one_win_in_blitz :
  let st := CricketHeadToHead.calculate_head_to_head
              [Samples.played "A" "WIN" "iBC 360 - 250 Blitz"] empty_store in
  global_record st "A" = Some (mkStats 1 0 1)
  /\ bucket_record st "iBC 360" "A" = Some (mkStats 1 0 1)
  /\ bucket_record st "iBC 360 - 250" "A" = Some (mkStats 1 0 1)
  /\ tournament_types st = ["iBC 360"].
Proof. cbv zeta. repeat split. Qed.

Example in_progress_excluded :
  CricketHeadToHead.calculate_head_to_head [Samples.in_progress] empty_store
  = empty_store.
Proof. reflexivity. Qed.

Example best_of_two :
  find_best_opponent
    (mkStore [("A", mkStats 3 0 3); ("B", mkStats 1 1 2)] [] [])
  = Some ("A", win_rate (mkStats 3 0 3)).
Proof. reflexivity. Qed.


(** * Further properties *)

(** ** The summaries *)

Section SortedByTotal.

Lemma total_ge_trans (a b c : string * Stats) :
  total_ge a b -> total_ge b c -> total_ge a c.
Proof. unfold total_ge. lia. Qed.

Lemma insert_by_total_perm (x : string * Stats) (l : list (string * Stats)) :
  Permutation (insert_by_total x l) (x :: l).
Proof.
  induction l as [|y l IH]; cbn [insert_by_total]; [reflexivity|].
  destruct (total_matches (snd x) <=? total_matches (snd y)); [|reflexivity].
  rewrite IH. apply perm_swap.
Qed.

Lemma insert_by_total_hd (x a : string * Stats) (l : list (string * Stats)) :
  total_ge a x -> HdRel total_ge a l -> HdRel total_ge a (insert_by_total x l).
Proof.
  intros Hax H. destruct l as [|y l]; cbn [insert_by_total].
  - now constructor.
  - inversion H; subst.
    destruct (total_matches (snd x) <=? total_matches (snd y)); now constructor.
Qed.

Lemma insert_by_total_sorted (x : string * Stats) (l : list (string * Stats)) :
  Sorted total_ge l -> Sorted total_ge (insert_by_total x l).
Proof.
  induction 1 as [|y l Hl IH Hy]; cbn [insert_by_total].
  - repeat constructor.
  - destruct (Z.leb_spec (total_matches (snd x)) (total_matches (snd y))) as [E|E].
    + constructor; [exact IH|]. now apply insert_by_total_hd.
    + constructor; [now constructor|]. constructor. unfold total_ge. lia.
Qed.

Lemma with_total_none (t : Z) (l : list (string * Stats)) :
  (forall z, In z l -> total_matches (snd z) <> t) -> with_total t l = [].
Proof.
  unfold with_total. induction l as [|z l IH]; intros H; cbn [filter].
  - reflexivity.
  - destruct (Z.eqb_spec (total_matches (snd z)) t) as [E|E].
    + exfalso. apply (H z); [now left | exact E].
    + apply IH. intros y Hy. apply H. now right.
Qed.

(** In a sorted list the new item lands behind the items of its own total. *)
Lemma insert_by_total_stable (t : Z) (x : string * Stats) (l : list (string * Stats)) :
  StronglySorted total_ge l ->
  with_total t (insert_by_total x l) = (with_total t l ++ with_total t [x])%list.
Proof.
  induction 1 as [|y l Hl IH Hy]; cbn [insert_by_total].
  - reflexivity.
  - destruct (Z.leb_spec (total_matches (snd x)) (total_matches (snd y))) as [E|E].
    + unfold with_total in *. cbn [filter] in *. rewrite IH.
      now destruct (total_matches (snd y) =? t).
    + change (with_total t (x :: y :: l))
        with (if total_matches (snd x) =? t
              then x :: with_total t (y :: l) else with_total t (y :: l)).
      change (with_total t [x])
        with (if total_matches (snd x) =? t then [x] else []).
      destruct (Z.eqb_spec (total_matches (snd x)) t) as [Ex|Ex].
      * rewrite (with_total_none t (y :: l)); [reflexivity|].
        intros z Hz. destruct Hz as [<- | Hz]; [lia|].
        rewrite Forall_forall in Hy. specialize (Hy z Hz).
        unfold total_ge in Hy. lia.
      * now rewrite app_nil_r.
Qed.

Lemma sorted_by_total_fold (l : list (string * Stats)) :
  forall acc,
    Sorted total_ge acc ->
    let r := fold_left (fun a x => insert_by_total x a) l acc in
    Sorted total_ge r
    /\ Permutation r (acc ++ l)
    /\ forall t, with_total t r = (with_total t acc ++ with_total t l)%list.
Proof.
  induction l as [|x l IH]; intros acc H; cbn [fold_left]; cbv zeta.
  - rewrite app_nil_r. repeat split; auto.
    intros t. unfold with_total. cbn [filter]. now rewrite app_nil_r.
  - destruct (IH _ (insert_by_total_sorted x acc H)) as (S & P & F).
    repeat split; [exact S | |].
    + rewrite P, insert_by_total_perm. apply Permutation_middle.
    + intros t. rewrite F, insert_by_total_stable.
      * rewrite <- app_assoc. f_equal. unfold with_total. cbn [filter].
        now destruct (total_matches (snd x) =? t).
      * apply Sorted_StronglySorted; [|exact H].
        intros a b c. apply total_ge_trans.
Qed.

Lemma sorted_by_total_spec (d : Dict.t Stats) :
  StronglySorted total_ge (sorted_by_total_desc d)
  /\ Permutation (sorted_by_total_desc d) d
  /\ forall t, with_total t (sorted_by_total_desc d) = with_total t d.
Proof.
  destruct (sorted_by_total_fold d [] (Sorted_nil _)) as (S & P & F).
  repeat split; [| exact P | exact F].
  apply Sorted_StronglySorted; [|exact S].
  intros a b c. apply total_ge_trans.
Qed.

End SortedByTotal.

Section Sums.

Lemma sum_field_acc (f : Stats -> Z) (d : Dict.t Stats) :
  forall a, fold_left (fun acc x => acc + f (snd x)) d a = a + sum_field f d.
Proof.
  unfold sum_field. induction d as [|x d IH]; intros a; cbn [fold_left].
  - lia.
  - rewrite IH, (IH (0 + f (snd x))). lia.
Qed.

Lemma sum_field_cons (f : Stats -> Z) (x : string * Stats) (d : Dict.t Stats) :
  sum_field f (x :: d) = f (snd x) + sum_field f d.
Proof. unfold sum_field at 1. cbn [fold_left]. now rewrite sum_field_acc. Qed.

Lemma sum_field_perm (f : Stats -> Z) (d d' : Dict.t Stats) :
  Permutation d d' -> sum_field f d = sum_field f d'.
Proof.
  induction 1 as [| x l l' _ IH | x y l | l l' l'' _ IH1 _ IH2];
    rewrite ?sum_field_cons; try lia; reflexivity.
Qed.

Lemma add_up_sums (l : list (string * Stats)) :
  CricketHeadToHeadQueries.add_up l
  = (sum_field wins l, sum_field losses l, sum_field total_matches l).
Proof.
  unfold CricketHeadToHeadQueries.add_up.
  assert (G : forall w0 l0 t0,
             fold_left
               (fun (acc : Z * Z * Z) (x : string * Stats) =>
                  let '(w, l, t) := acc in
                  (w + wins (snd x), l + losses (snd x), t + total_matches (snd x)))
               l (w0, l0, t0)
             = (w0 + sum_field wins l, l0 + sum_field losses l,
                t0 + sum_field total_matches l)).
  { induction l as [|x l IH]; intros w0 l0 t0; cbn [fold_left].
    - unfold sum_field. cbn [fold_left]. now rewrite !Z.add_0_r.
    - rewrite IH, !sum_field_cons. now rewrite !Z.add_assoc. }
  now rewrite G.
Qed.

Lemma strongly_sorted_app {A : Type} (R : A -> A -> Prop) (l1 l2 : list A) :
  StronglySorted R (l1 ++ l2) ->
  StronglySorted R l1 /\ forall x y, In x l1 -> In y l2 -> R x y.
Proof.
  induction l1 as [|a l1 IH]; cbn [app]; intros H.
  - split; [constructor | intros x y []].
  - inversion H as [|? ? Hs Hf]; subst. destruct (IH Hs) as [S1 C].
    rewrite Forall_forall in Hf. split.
    + constructor; [exact S1|]. apply Forall_forall. intros z Hz.
      apply Hf, in_or_app. now left.
    + intros x y [<- | Hx] Hy; [|now apply C].
      apply Hf, in_or_app. now right.
Qed.

End Sums.

Lemma h2h_summary_totals (tournament_filter : string) (st : Store) :
  let a := CricketHeadToHeadQueries.get_statistics_data tournament_filter st in
  let d := stats_data tournament_filter st in
  CricketHeadToHeadQueries.total_wins a = sum_field wins d
  /\ CricketHeadToHeadQueries.total_losses a = sum_field losses d
  /\ CricketHeadToHeadQueries.matches_total a = sum_field total_matches d.
Proof.
  unfold CricketHeadToHeadQueries.get_statistics_data.
  destruct (stats_data tournament_filter st) as [|x d] eqn:E.
  - cbn. repeat split.
  - rewrite add_up_sums. cbv zeta.
    destruct (sorted_by_total_spec (x :: d)) as (_ & P & _).
    rewrite !(sum_field_perm _ _ _ P). repeat split.
Qed.

Lemma rg_summary_totals (tournament_filter : string) (st : Store) :
  let b := CricketReportGeneratorQueries.get_statistics_summary tournament_filter st in
  let d := stats_data tournament_filter st in
  CricketReportGeneratorQueries.total_wins b = sum_field wins d
  /\ CricketReportGeneratorQueries.total_losses b = sum_field losses d
  /\ CricketReportGeneratorQueries.matches_total b = sum_field total_matches d.
Proof.
  unfold CricketReportGeneratorQueries.get_statistics_summary.
  destruct (stats_data tournament_filter st) as [|x d] eqn:E; repeat split.
Qed.

(** X1. The opponents of a summary are the items of the chosen dictionary,
    ordered by falling total, and the items of one total stand in the order
    of the dictionary. *)
Theorem opponents_data_sorted_stable (tournament_filter : string) (st : Store) :
  let r := CricketHeadToHeadQueries.opponents_data
             (CricketHeadToHeadQueries.get_statistics_data tournament_filter st) in
  Permutation r (stats_data tournament_filter st)
  /\ StronglySorted total_ge r
  /\ forall t, with_total t r = with_total t (stats_data tournament_filter st).
Proof.
  unfold CricketHeadToHeadQueries.get_statistics_data.
  destruct (stats_data tournament_filter st) as [|x d] eqn:E.
  - cbn. repeat split; constructor.
  - destruct (CricketHeadToHeadQueries.add_up _) as [[w l] t].
    cbn [CricketHeadToHeadQueries.opponents_data].
    destruct (sorted_by_total_spec (x :: d)) as (S & P & F). auto.
Qed.

(** X2. The totals of a summary are the sums over the chosen dictionary,
    and the summaries of the two classes agree: same totals, same
    percentage, and the top opponents of the report generator are the first
    ten opponents of the other class. *)
Theorem summaries_agree (tournament_filter : string) (st : Store) :
  let a := CricketHeadToHeadQueries.get_statistics_data tournament_filter st in
  let b := CricketReportGeneratorQueries.get_statistics_summary tournament_filter st in
  let d := stats_data tournament_filter st in
  CricketHeadToHeadQueries.total_wins a = sum_field wins d
  /\ CricketHeadToHeadQueries.total_losses a = sum_field losses d
  /\ CricketHeadToHeadQueries.matches_total a = sum_field total_matches d
  /\ CricketReportGeneratorQueries.total_wins b
     = CricketHeadToHeadQueries.total_wins a
  /\ CricketReportGeneratorQueries.total_losses b
     = CricketHeadToHeadQueries.total_losses a
  /\ CricketReportGeneratorQueries.matches_total b
     = CricketHeadToHeadQueries.matches_total a
  /\ CricketReportGeneratorQueries.win_percentage b
     = CricketHeadToHeadQueries.win_percentage a
  /\ CricketReportGeneratorQueries.top_opponents b
     = firstn 10 (CricketHeadToHeadQueries.opponents_data a)
  /\ CricketReportGeneratorQueries.opponents_count b = List.length d.
Proof.
  unfold CricketHeadToHeadQueries.get_statistics_data,
    CricketReportGeneratorQueries.get_statistics_summary.
  destruct (stats_data tournament_filter st) as [|x d] eqn:E.
  - cbn. repeat split.
  - rewrite add_up_sums. cbv zeta.
    destruct (sorted_by_total_spec (x :: d)) as (_ & P & _).
    rewrite !(sum_field_perm _ _ _ P).
    cbn [CricketHeadToHeadQueries.total_wins
         CricketHeadToHeadQueries.total_losses
         CricketHeadToHeadQueries.matches_total
         CricketHeadToHeadQueries.win_percentage
         CricketHeadToHeadQueries.opponents_data
         CricketReportGeneratorQueries.total_wins
         CricketReportGeneratorQueries.total_losses
         CricketReportGeneratorQueries.matches_total
         CricketReportGeneratorQueries.win_percentage
         CricketReportGeneratorQueries.top_opponents
         CricketReportGeneratorQueries.opponents_count].
    repeat split.
Qed.

(** X3. The top opponents are at most ten, all of them when there are
    fewer; they are ordered by falling total, and no opponent left out has a
    larger total than one that is listed. *)
Theorem top_opponents_most_played (tournament_filter : string) (st : Store) :
  let top := CricketReportGeneratorQueries.top_opponents
               (CricketReportGeneratorQueries.get_statistics_summary
                  tournament_filter st) in
  let d := stats_data tournament_filter st in
  List.length top = Nat.min 10 (List.length d)
  /\ StronglySorted total_ge top
  /\ exists rest,
       Permutation (top ++ rest) d
       /\ forall x y, In x top -> In y rest -> total_ge x y.
Proof.
  unfold CricketReportGeneratorQueries.get_statistics_summary.
  destruct (stats_data tournament_filter st) as [|x d] eqn:E.
  - cbn. repeat split; [constructor|]. exists []. split; [constructor|].
    intros ? ? [].
  - cbn [CricketReportGeneratorQueries.top_opponents].
    destruct (sorted_by_total_spec (x :: d)) as (S & P & _).
    rewrite <- (firstn_skipn 10 (sorted_by_total_desc (x :: d))) in S.
    apply strongly_sorted_app in S. destruct S as [S C].
    repeat split.
    + rewrite length_firstn. now rewrite (Permutation_length P).
    + exact S.
    + exists (skipn 10 (sorted_by_total_desc (x :: d))). split; [|exact C].
      now rewrite firstn_skipn.
Qed.

(** ** The sums of the records after a run *)

Ltac stats_arith :=
  apply stats_eq;
  unfold new_stats, result_delta, incr_total_matches, incr_wins, incr_losses;
  cbn [wins losses total_matches add_stats scale_stats b2z];
  lia.

Section RecordSums.

Lemma sum_records_cons (x : string * Stats) (d : Dict.t Stats) :
  sum_records (x :: d) = add_stats (snd x) (sum_records d).
Proof. reflexivity. Qed.

Lemma sum_records_update (g : Stats -> Stats) (delta : Stats) (k : string)
    (d : Dict.t Stats) :
  (forall s, g s = add_stats s delta) ->
  sum_records (Dict.update new_stats g k d) = add_stats (sum_records d) delta.
Proof.
  intros Hg. induction d as [|[k0 v] d IH]; cbn [Dict.update].
  - rewrite sum_records_cons. cbn [snd]. rewrite Hg.
    stats_arith.
  - destruct (String.eqb k0 k); rewrite !sum_records_cons; cbn [snd].
    + rewrite Hg. stats_arith.
    + rewrite IH. stats_arith.
Qed.

Lemma incr_total_matches_add (s : Stats) :
  incr_total_matches s = add_stats s (mkStats 0 0 1).
Proof. stats_arith. Qed.

Lemma incr_wins_add (s : Stats) : incr_wins s = add_stats s (mkStats 1 0 0).
Proof. stats_arith. Qed.

Lemma incr_losses_add (s : Stats) : incr_losses s = add_stats s (mkStats 0 1 0).
Proof. stats_arith. Qed.

Lemma sum_field_records (d : Dict.t Stats) :
  sum_field wins d = wins (sum_records d)
  /\ sum_field losses d = losses (sum_records d)
  /\ sum_field total_matches d = total_matches (sum_records d).
Proof.
  induction d as [|x d (IH1 & IH2 & IH3)].
  - repeat split.
  - rewrite !sum_field_cons, sum_records_cons, IH1, IH2, IH3. repeat split.
Qed.

Lemma get_default_bump (g : Stats -> Stats) (b o b' : string)
    (ts : Dict.t (Dict.t Stats)) :
  Dict.get_default [] b' (bump_bucket g b o ts)
  = if String.eqb b b'
    then Dict.update new_stats g o (Dict.get_default [] b ts)
    else Dict.get_default [] b' ts.
Proof.
  unfold bump_bucket, Dict.get_default at 1. rewrite get_update.
  now destruct (String.eqb b b').
Qed.

Lemma sum_records_bump (g : Stats -> Stats) (delta : Stats) (b o b' : string)
    (ts : Dict.t (Dict.t Stats)) :
  (forall s, g s = add_stats s delta) ->
  sum_records (Dict.get_default [] b' (bump_bucket g b o ts))
  = add_stats (sum_records (Dict.get_default [] b' ts))
              (scale_stats (b2z (String.eqb b b')) delta).
Proof.
  intros Hg. rewrite get_default_bump.
  destruct (String.eqb_spec b b') as [->|N].
  - rewrite (sum_records_update g delta o _ Hg). stats_arith.
  - stats_arith.
Qed.

Lemma record_result_sum (o : string) (r : option string) (mt sub : string)
    (st : Store) :
  sum_records (head_to_head_stats (record_result o r mt sub st))
  = add_stats (sum_records (head_to_head_stats st)) (result_delta r).
Proof.
  unfold record_result, result_delta.
  destruct (result_is r "WIN") eqn:W;
    [rewrite ?(result_is_win_loss _ W) | destruct (result_is r "LOSS") eqn:L];
    cbn [head_to_head_stats];
    rewrite ?(sum_records_update _ _ _ _ incr_wins_add),
            ?(sum_records_update _ _ _ _ incr_losses_add),
            ?(sum_records_update _ _ _ _ incr_total_matches_add);
    stats_arith.
Qed.

Lemma record_result_bucket_sum (o : string) (r : option string) (mt sub : string)
    (st : Store) (b : string) :
  sum_records (Dict.get_default [] b (tournament_stats (record_result o r mt sub st)))
  = add_stats (sum_records (Dict.get_default [] b (tournament_stats st)))
              (scale_stats (times_in_bucket (mt, sub) b) (result_delta r)).
Proof.
  unfold record_result, result_delta, times_in_bucket.
  destruct (result_is r "WIN") eqn:W;
    [rewrite ?(result_is_win_loss _ W) | destruct (result_is r "LOSS") eqn:L];
    cbn [tournament_stats fst snd];
    rewrite ?(sum_records_bump _ _ _ _ _ _ incr_wins_add),
            ?(sum_records_bump _ _ _ _ _ _ incr_losses_add),
            ?(sum_records_bump _ _ _ _ _ _ incr_total_matches_add);
    destruct (String.eqb mt b), (String.eqb sub b); stats_arith.
Qed.

Variable classify : Match -> string * string.

Lemma count_match_sum (st : Store) (m : Match) :
  sum_records (head_to_head_stats (count_match classify st m))
  = add_stats (sum_records (head_to_head_stats st)) (counted_delta m).
Proof.
  unfold count_match, counted_delta. destruct (selected m) as [[me opp]|].
  - apply record_result_sum.
  - stats_arith.
Qed.

Lemma count_match_bucket_sum (st : Store) (m : Match) (b : string) :
  sum_records (Dict.get_default [] b (tournament_stats (count_match classify st m)))
  = add_stats (sum_records (Dict.get_default [] b (tournament_stats st)))
              (scale_stats (times_in_bucket (classify m) b) (counted_delta m)).
Proof.
  unfold count_match, counted_delta. destruct (selected m) as [[me opp]|].
  - rewrite record_result_bucket_sum. now destruct (classify m).
  - stats_arith.
Qed.

Lemma fold_sum (data : list Match) :
  forall st,
    sum_records (head_to_head_stats (fold_left (count_match classify) data st))
    = add_stats (sum_records (head_to_head_stats st))
                (sum_stats (map counted_delta data)).
Proof.
  induction data as [|m data IH]; intros st; cbn [fold_left map].
  - unfold sum_stats. cbn [fold_right]. stats_arith.
  - rewrite IH, count_match_sum. unfold sum_stats. cbn [fold_right].
    stats_arith.
Qed.

Lemma fold_bucket_sum (data : list Match) (b : string) :
  forall st,
    sum_records
      (Dict.get_default [] b
         (tournament_stats (fold_left (count_match classify) data st)))
    = add_stats
        (sum_records (Dict.get_default [] b (tournament_stats st)))
        (sum_stats
           (map (fun m => scale_stats (times_in_bucket (classify m) b)
                                      (counted_delta m)) data)).
Proof.
  induction data as [|m data IH]; intros st; cbn [fold_left map].
  - unfold sum_stats. cbn [fold_right]. stats_arith.
  - rewrite IH, count_match_bucket_sum. unfold sum_stats. cbn [fold_right].
    stats_arith.
Qed.

(** The three counters of a sum of contributions, as numbers of matches *)
Lemma counted_sum_fields (p : Match -> bool) (data : list Match) :
  let s := sum_stats
             (map (fun m => scale_stats (b2z (p m)) (counted_delta m)) data) in
  total_matches s = count_counted (fun m _ _ => p m) data
  /\ wins s = count_counted (fun m me _ => p m && won me) data
  /\ losses s = count_counted (fun m me _ => p m && lost me) data.
Proof.
  unfold count_counted, sum_stats.
  induction data as [|m data (IH1 & IH2 & IH3)]; [repeat split|].
  cbv zeta in *. cbn [map fold_right add_stats total_matches wins losses].
  rewrite !count_cons, IH1, IH2, IH3.
  unfold counted_delta, won, lost, result_delta.
  destruct (selected m) as [[me opp]|]; destruct (p m); cbn;
    try destruct (result_is (Dict.get "result" me) "WIN");
    try destruct (result_is (Dict.get "result" me) "LOSS");
    cbn; repeat split; lia.
Qed.

End RecordSums.

Section AggregatedSums.

Lemma sum_stats_scale_one (f : Match -> Stats) (data : list Match) :
  sum_stats (map f data)
  = sum_stats (map (fun m => scale_stats (b2z true) (f m)) data).
Proof.
  unfold sum_stats. induction data as [|m data IH]; [reflexivity|].
  cbn [map fold_right]. rewrite <- IH. stats_arith.
Qed.

Lemma add_new_stats_l (s : Stats) : add_stats new_stats s = s.
Proof. stats_arith. Qed.

Variable classify : Match -> string * string.

(** The sums over the global aggregate after a run from the empty store *)
Lemma run_global_sums (data : list Match) :
  let d := head_to_head_stats (fold_left (count_match classify) data empty_store) in
  sum_field total_matches d = count_counted (fun _ _ _ => true) data
  /\ sum_field wins d = count_counted (fun _ me _ => won me) data
  /\ sum_field losses d = count_counted (fun _ me _ => lost me) data.
Proof.
  cbv zeta.
  destruct (sum_field_records
              (head_to_head_stats
                 (fold_left (count_match classify) data empty_store)))
    as (-> & -> & ->).
  rewrite fold_sum. change (sum_records (head_to_head_stats empty_store))
    with new_stats. rewrite add_new_stats_l, sum_stats_scale_one.
  destruct (counted_sum_fields (fun _ => true) data) as (-> & -> & ->).
  repeat split.
Qed.

(** The same for a bucket that receives each match at most once, those of
    [p] *)
Lemma run_bucket_sums (p : Match -> bool) (b : string) (data : list Match) :
  (forall m, times_in_bucket (classify m) b = b2z (p m)) ->
  let d := Dict.get_default [] b
             (tournament_stats (fold_left (count_match classify) data empty_store)) in
  sum_field total_matches d = count_counted (fun m _ _ => p m) data
  /\ sum_field wins d = count_counted (fun m me _ => p m && won me) data
  /\ sum_field losses d = count_counted (fun m me _ => p m && lost me) data.
Proof.
  intros H. cbv zeta.
  destruct (sum_field_records
              (Dict.get_default [] b
                 (tournament_stats
                    (fold_left (count_match classify) data empty_store))))
    as (-> & -> & ->).
  rewrite fold_bucket_sum.
  change (sum_records (Dict.get_default [] b (tournament_stats empty_store)))
    with new_stats.
  rewrite add_new_stats_l.
  rewrite (map_ext _ (fun m => scale_stats (b2z (p m)) (counted_delta m)))
    by (intros m; now rewrite H).
  destruct (counted_sum_fields p data) as (-> & -> & ->).
  repeat split.
Qed.

(** The totals of three buckets that together receive every match once, and
    those of [q] once more *)
Lemma run_three_buckets (q : Match -> bool) (b1 b2 b3 : string) (data : list Match) :
  (forall m, times_in_bucket (classify m) b1 + times_in_bucket (classify m) b2
             + times_in_bucket (classify m) b3 = 1 + b2z (q m)) ->
  let st := fold_left (count_match classify) data empty_store in
  let tot b := sum_field total_matches (Dict.get_default [] b (tournament_stats st)) in
  tot b1 + tot b2 + tot b3
  = sum_field total_matches (head_to_head_stats st)
    + count_counted (fun m _ _ => q m) data.
Proof.
  intros H. cbv zeta.
  rewrite !(proj2 (proj2 (sum_field_records _))), !fold_bucket_sum, fold_sum.
  change (sum_records (head_to_head_stats empty_store)) with new_stats.
  change (sum_records (Dict.get_default [] b1 (tournament_stats empty_store)))
    with new_stats.
  change (sum_records (Dict.get_default [] b2 (tournament_stats empty_store)))
    with new_stats.
  change (sum_records (Dict.get_default [] b3 (tournament_stats empty_store)))
    with new_stats.
  rewrite !add_new_stats_l. unfold count_counted, sum_stats.
  induction data as [|m data IH]; [reflexivity|].
  cbn [map fold_right add_stats scale_stats total_matches].
  rewrite !count_cons. specialize (H m).
  assert (C : total_matches (counted_delta m)
              = b2z match selected m with
                    | Some (_, _) => true
                    | None => false
                    end).
  { unfold counted_delta. now destruct (selected m) as [[? ?]|]. }
  rewrite C. destruct (selected m) as [[me opp]|]; cbn [b2z]; nia.
Qed.

End AggregatedSums.

Section LabelFacts.

Lemma subtype_not_main (n : option string) :
  snd (CricketHeadToHead.parse_tournament_type n) <> "iBC PRO 360"
  /\ snd (CricketHeadToHead.parse_tournament_type n) <> "iBC 360".
Proof.
  unfold CricketHeadToHead.parse_tournament_type.
  destruct (negb (PyStr.truthy n)); [split; discriminate|].
  destruct (PyStr.contains "iBC PRO 360" _) eqn:C1.
  { destruct (1 <? _)%nat; split; discriminate. }
  destruct (PyStr.contains "iBC 360" _) eqn:C2.
  { destruct (1 <? _)%nat; split; discriminate. }
  cbn [snd]. split; intros E; rewrite E in *; discriminate.
Qed.

Lemma times_in_ibc_bucket (n : option string) (b : string) :
  b = "iBC PRO 360" \/ b = "iBC 360" ->
  times_in_bucket (CricketHeadToHead.parse_tournament_type n) b
  = b2z (String.eqb (fst (CricketHeadToHead.parse_tournament_type n)) b).
Proof.
  intros Hb. unfold times_in_bucket.
  destruct (subtype_not_main n) as [N1 N2].
  destruct (String.eqb_spec (snd (CricketHeadToHead.parse_tournament_type n)) b)
    as [E|E].
  - destruct Hb; congruence.
  - cbn [b2z]. lia.
Qed.

Lemma times_in_main_buckets (name : string) :
  let cls := CricketHeadToHead.parse_tournament_type (Some name) in
  times_in_bucket cls "iBC PRO 360" + times_in_bucket cls "iBC 360"
  + times_in_bucket cls "Other"
  = 1 + b2z (String.eqb name "Other").
Proof.
  cbv zeta. unfold CricketHeadToHead.parse_tournament_type.
  destruct (negb (PyStr.truthy (Some name))) eqn:T.
  { destruct name; [reflexivity | discriminate]. }
  destruct (PyStr.contains "iBC PRO 360" name) eqn:C1.
  { destruct (String.eqb_spec name "Other") as [->|N]; [discriminate|].
    destruct (1 <? _)%nat; reflexivity. }
  destruct (PyStr.contains "iBC 360" name) eqn:C2.
  { destruct (String.eqb_spec name "Other") as [->|N]; [discriminate|].
    destruct (1 <? _)%nat; reflexivity. }
  unfold times_in_bucket. cbn [fst snd].
  destruct (String.eqb_spec name "iBC PRO 360") as [->|N1]; [discriminate|].
  destruct (String.eqb_spec name "iBC 360") as [->|N2]; [discriminate|].
  now destruct (String.eqb name "Other").
Qed.

End LabelFacts.

(** X4. After a run from the empty store, the overall summary counts the
    matches that were counted: its total is their number, its wins and
    losses are the numbers of those the tracked player won and lost. Both
    classes. *)
Theorem overall_summary_counts_matches (data : list Match) :
  let a := CricketHeadToHeadQueries.get_statistics_data "All"
             (CricketHeadToHead.calculate_head_to_head data empty_store) in
  let b := CricketReportGeneratorQueries.get_statistics_summary "All"
             (CricketReportGenerator.store
                (CricketReportGenerator.calculate_statistics
                   data CricketReportGenerator.empty_state)) in
  CricketHeadToHeadQueries.matches_total a = count_counted (fun _ _ _ => true) data
  /\ CricketHeadToHeadQueries.total_wins a = count_counted (fun _ me _ => won me) data
  /\ CricketHeadToHeadQueries.total_losses a
     = count_counted (fun _ me _ => lost me) data
  /\ CricketReportGeneratorQueries.matches_total b
     = count_counted (fun _ _ _ => true) data
  /\ CricketReportGeneratorQueries.total_wins b
     = count_counted (fun _ me _ => won me) data
  /\ CricketReportGeneratorQueries.total_losses b
     = count_counted (fun _ me _ => lost me) data.
Proof.
  cbv zeta.
  destruct (h2h_summary_totals "All"
              (CricketHeadToHead.calculate_head_to_head data empty_store))
    as (-> & -> & ->).
  destruct (rg_summary_totals "All"
              (CricketReportGenerator.store
                 (CricketReportGenerator.calculate_statistics
                    data CricketReportGenerator.empty_state)))
    as (-> & -> & ->).
  unfold stats_data. cbn [String.eqb Ascii.eqb Bool.eqb].
  rewrite h2h_calculate_count, rg_calculate_count.
  change (CricketReportGenerator.store CricketReportGenerator.empty_state)
    with empty_store.
  destruct (run_global_sums CricketHeadToHead.classify_match data)
    as (-> & -> & ->).
  destruct (run_global_sums CricketReportGenerator.classify_match data)
    as (-> & -> & ->).
  repeat split.
Qed.

Section IbcBuckets.

Lemma h2h_times_in_ibc (b : string) (m : Match) :
  b = "iBC PRO 360" \/ b = "iBC 360" ->
  times_in_bucket (CricketHeadToHead.classify_match m) b
  = b2z (String.eqb (fst (CricketHeadToHead.classify_match m)) b).
Proof. intros Hb. now apply times_in_ibc_bucket. Qed.

Lemma rg_times_in_ibc (b : string) (m : Match) :
  b = "iBC PRO 360" \/ b = "iBC 360" ->
  times_in_bucket (CricketReportGenerator.classify_match m) b
  = b2z (String.eqb (fst (CricketReportGenerator.classify_match m)) b).
Proof.
  intros Hb. unfold CricketReportGenerator.classify_match.
  rewrite <- parse_variants_eq. now apply times_in_ibc_bucket.
Qed.

Lemma stats_data_bucket (b : string) (st : Store) :
  b <> "All" -> stats_data b st = Dict.get_default [] b (tournament_stats st).
Proof.
  intros N. unfold stats_data.
  destruct (String.eqb_spec b "All"); [congruence | reflexivity].
Qed.

End IbcBuckets.

(** X5. After a run from the empty store, the summary of each of the main
    types ["iBC PRO 360"] and ["iBC 360"] counts the matches classified with
    that main type: their number, and the numbers of those won and lost.
    Both classes. *)
Theorem ibc_summary_counts_matches (b : string) (data : list Match) :
  b = "iBC PRO 360" \/ b = "iBC 360" ->
  let x := CricketHeadToHeadQueries.get_statistics_data b
             (CricketHeadToHead.calculate_head_to_head data empty_store) in
  let y := CricketReportGeneratorQueries.get_statistics_summary b
             (CricketReportGenerator.store
                (CricketReportGenerator.calculate_statistics
                   data CricketReportGenerator.empty_state)) in
  let p m := String.eqb (fst (CricketHeadToHead.classify_match m)) b in
  let q m := String.eqb (fst (CricketReportGenerator.classify_match m)) b in
  CricketHeadToHeadQueries.matches_total x = count_counted (fun m _ _ => p m) data
  /\ CricketHeadToHeadQueries.total_wins x
     = count_counted (fun m me _ => p m && won me) data
  /\ CricketHeadToHeadQueries.total_losses x
     = count_counted (fun m me _ => p m && lost me) data
  /\ CricketReportGeneratorQueries.matches_total y
     = count_counted (fun m _ _ => q m) data
  /\ CricketReportGeneratorQueries.total_wins y
     = count_counted (fun m me _ => q m && won me) data
  /\ CricketReportGeneratorQueries.total_losses y
     = count_counted (fun m me _ => q m && lost me) data.
Proof.
  intros Hb. cbv zeta.
  assert (N : b <> "All") by (destruct Hb as [-> | ->]; discriminate).
  destruct (h2h_summary_totals b
              (CricketHeadToHead.calculate_head_to_head data empty_store))
    as (-> & -> & ->).
  destruct (rg_summary_totals b
              (CricketReportGenerator.store
                 (CricketReportGenerator.calculate_statistics
                    data CricketReportGenerator.empty_state)))
    as (-> & -> & ->).
  rewrite !(stats_data_bucket b _ N), h2h_calculate_count, rg_calculate_count.
  change (CricketReportGenerator.store CricketReportGenerator.empty_state)
    with empty_store.
  destruct (run_bucket_sums CricketHeadToHead.classify_match
              (fun m => String.eqb (fst (CricketHeadToHead.classify_match m)) b)
              b data (fun m => h2h_times_in_ibc b m Hb)) as (-> & -> & ->).
  destruct (run_bucket_sums CricketReportGenerator.classify_match
              (fun m => String.eqb (fst (CricketReportGenerator.classify_match m)) b)
              b data (fun m => rg_times_in_ibc b m Hb)) as (-> & -> & ->).
  repeat split.
Qed.

Lemma ibc_summary_counts_matches_witness :
  CricketHeadToHeadQueries.matches_total
    (CricketHeadToHeadQueries.get_statistics_data "iBC 360"
       (CricketHeadToHead.calculate_head_to_head
          [Samples.won_against_nameless; Samples.won_in_other] empty_store))
  = count_counted
      (fun m _ _ => String.eqb (fst (CricketHeadToHead.classify_match m)) "iBC 360")
      [Samples.won_against_nameless; Samples.won_in_other].
Proof.
  exact (proj1 (ibc_summary_counts_matches "iBC 360"
                  [Samples.won_against_nameless; Samples.won_in_other]
                  (or_intror eq_refl))).
Defined.

(** X6. After a run from the empty store, the totals of the summaries of
    the three main types add up to the overall total plus the number of
    counted matches whose tournament is called ["Other"]: the three
    per-type totals account for every counted match exactly when no
    tournament has that name. Both classes, each with the name it reads. *)
Theorem main_type_totals_add_up (data : list Match) :
  let st := CricketHeadToHead.calculate_head_to_head data empty_store in
  let tot f := CricketHeadToHeadQueries.matches_total
                 (CricketHeadToHeadQueries.get_statistics_data f st) in
  let st' := CricketReportGenerator.store
               (CricketReportGenerator.calculate_statistics
                  data CricketReportGenerator.empty_state) in
  let tot' f := CricketReportGeneratorQueries.matches_total
                  (CricketReportGeneratorQueries.get_statistics_summary f st') in
  tot "iBC PRO 360" + tot "iBC 360" + tot "Other"
  = tot "All"
    + count_counted
        (fun m _ _ => String.eqb (CricketHeadToHead.resolve_tournament_name m) "Other")
        data
  /\ tot' "iBC PRO 360" + tot' "iBC 360" + tot' "Other"
     = tot' "All"
       + count_counted
           (fun m _ _ =>
              String.eqb (CricketReportGenerator.resolve_tournament_name m) "Other")
           data.
Proof.
  cbv zeta. split.
  - rewrite !(proj2 (proj2 (h2h_summary_totals _ _))).
    unfold stats_data. cbn [String.eqb Ascii.eqb Bool.eqb].
    rewrite h2h_calculate_count.
    apply (run_three_buckets CricketHeadToHead.classify_match
             (fun m => String.eqb (CricketHeadToHead.resolve_tournament_name m)
                                  "Other")).
    intros m. apply times_in_main_buckets.
  - rewrite !(proj2 (proj2 (rg_summary_totals _ _))).
    unfold stats_data. cbn [String.eqb Ascii.eqb Bool.eqb].
    rewrite rg_calculate_count.
    change (CricketReportGenerator.store CricketReportGenerator.empty_state)
      with empty_store.
    apply (run_three_buckets CricketReportGenerator.classify_match
             (fun m => String.eqb (CricketReportGenerator.resolve_tournament_name m)
                                  "Other")).
    intros m. unfold CricketReportGenerator.classify_match.
    rewrite <- parse_variants_eq. apply times_in_main_buckets.
Qed.

(** ** The tournament types and the pictures *)

Section TournamentTypes.

Lemma set_add_in (x t : string) (s : list string) :
  In t (set_add x s) <-> t = x \/ In t s.
Proof.
  unfold set_add. destruct (existsb (String.eqb x) s) eqn:E.
  - split; [now right|]. intros [-> | H]; [|exact H].
    apply existsb_exists in E. destruct E as (y & Hy & Ey).
    apply String.eqb_eq in Ey. now subst.
  - rewrite in_app_iff. cbn [In]. split; intros H.
    + destruct H as [H | [<- | []]]; auto.
    + destruct H as [-> | H]; auto.
Qed.

Lemma set_add_nodup (x : string) (s : list string) :
  NoDup s -> NoDup (set_add x s).
Proof.
  intros H. unfold set_add. destruct (existsb (String.eqb x) s) eqn:E; [exact H|].
  apply NoDup_app; [exact H | repeat constructor; intros [] |].
  intros y Hy [Exy | []]. subst y.
  assert (existsb (String.eqb x) s = true); [|congruence].
  apply existsb_exists. exists x. split; [exact Hy | apply String.eqb_refl].
Qed.

Lemma record_result_types (o : string) (r : option string) (mt sub : string)
    (st : Store) :
  tournament_types (record_result o r mt sub st) = set_add mt (tournament_types st).
Proof.
  unfold record_result.
  destruct (result_is r "WIN"); [reflexivity|].
  destruct (result_is r "LOSS"); reflexivity.
Qed.

Lemma main_type_one_of_three (n : option string) :
  is_main_type (fst (CricketHeadToHead.parse_tournament_type n)).
Proof.
  unfold CricketHeadToHead.parse_tournament_type, is_main_type.
  destruct (negb (PyStr.truthy n)); [auto|].
  destruct (PyStr.contains "iBC PRO 360" _).
  { destruct (1 <? _)%nat; auto. }
  destruct (PyStr.contains "iBC 360" _); [|auto].
  destruct (1 <? _)%nat; auto.
Qed.

Lemma keys_bump_mono (g : Stats -> Stats) (b o k : string)
    (ts : Dict.t (Dict.t Stats)) :
  In k (Dict.keys ts) \/ k = b -> In k (Dict.keys (bump_bucket g b o ts)).
Proof.
  unfold bump_bucket. rewrite keys_update.
  destruct (Dict.mem b ts) eqn:M.
  - intros [H | ->]; [exact H|].
    unfold Dict.mem in M. clear -M.
    induction ts as [|[k0 v] ts IH]; [discriminate|].
    cbn [Dict.get] in M. cbn [Dict.keys map fst].
    destruct (String.eqb_spec k0 b) as [->|N]; [now left|].
    right. now apply IH.
  - intros [H | ->]; apply in_or_app; [now left | right; now left].
Qed.

Lemma record_result_keys_mono (o : string) (r : option string) (mt sub : string)
    (st : Store) (k : string) :
  In k (Dict.keys (tournament_stats st)) \/ k = mt ->
  In k (Dict.keys (tournament_stats (record_result o r mt sub st))).
Proof.
  intros H. unfold record_result.
  assert (H2 : In k (Dict.keys
                       (bump_bucket incr_total_matches sub o
                          (bump_bucket incr_total_matches mt o
                             (tournament_stats st))))).
  { apply keys_bump_mono. left. now apply keys_bump_mono. }
  destruct (result_is r "WIN"); [| destruct (result_is r "LOSS")];
    cbn [tournament_stats]; try exact H2;
    apply keys_bump_mono; left; apply keys_bump_mono; now left.
Qed.

Variable classify : Match -> string * string.

Lemma count_match_types (st : Store) (m : Match) :
  tournament_types (count_match classify st m)
  = match selected m with
    | Some _ => set_add (fst (classify m)) (tournament_types st)
    | None => tournament_types st
    end.
Proof.
  unfold count_match. destruct (selected m) as [[me opp]|]; [|reflexivity].
  apply record_result_types.
Qed.

Lemma run_types (data : list Match) :
  forall st,
    let st' := fold_left (count_match classify) data st in
    (NoDup (tournament_types st) -> NoDup (tournament_types st'))
    /\ (forall t, In t (tournament_types st') <->
                  In t (tournament_types st)
                  \/ exists m, In m data /\ selected m <> None
                               /\ fst (classify m) = t)
    /\ ((forall t, In t (tournament_types st) ->
                   In t (Dict.keys (tournament_stats st))) ->
        forall t, In t (tournament_types st') ->
                  In t (Dict.keys (tournament_stats st'))).
Proof.
  induction data as [|m data IH]; intros st; cbn [fold_left]; cbv zeta.
  - repeat split; auto. intros [H | (m & [] & _)]. exact H.
  - destruct (IH (count_match classify st m)) as (N & I & K). cbv zeta in *.
    repeat split.
    + intros H. apply N. rewrite count_match_types.
      destruct (selected m); [now apply set_add_nodup | exact H].
    + intros H. apply I in H. rewrite count_match_types in H.
      destruct H as [H | (m' & Hin & Hs & Ht)].
      * destruct (selected m) eqn:S; [|now left].
        apply set_add_in in H. destruct H as [-> | H]; [|now left].
        right. exists m. repeat split; [now left | congruence].
      * right. exists m'. repeat split; auto. now right.
    + intros H. apply I. rewrite count_match_types.
      destruct H as [H | (m' & [<- | Hin] & Hs & Ht)].
      * left. destruct (selected m); [apply set_add_in; now right | exact H].
      * left. destruct (selected m); [|congruence].
        apply set_add_in. now left.
      * right. exists m'. auto.
    + intros H. apply K. intros t Ht. rewrite count_match_types in Ht.
      unfold count_match. destruct (selected m) as [[me opp]|]; [|now apply H].
      apply record_result_keys_mono. apply set_add_in in Ht.
      destruct Ht as [-> | Ht]; [now right | left; now apply H].
Qed.

End TournamentTypes.

(** X7. After a run from the empty store, the set of tournament types holds
    exactly the main types of the counted matches, each once; every one of
    them is one of ["iBC PRO 360"], ["iBC 360"], ["Other"] and is the label
    of a bucket. Both classes. *)
Theorem tournament_types_after_run (data : list Match) :
  let st := CricketHeadToHead.calculate_head_to_head data empty_store in
  let st' := CricketReportGenerator.store
               (CricketReportGenerator.calculate_statistics
                  data CricketReportGenerator.empty_state) in
  NoDup (tournament_types st)
  /\ NoDup (tournament_types st')
  /\ (forall t, In t (tournament_types st) <->
                exists m, In m data /\ selected m <> None
                          /\ fst (CricketHeadToHead.classify_match m) = t)
  /\ (forall t, In t (tournament_types st') <->
                exists m, In m data /\ selected m <> None
                          /\ fst (CricketReportGenerator.classify_match m) = t)
  /\ (forall t, In t (tournament_types st) ->
                is_main_type t /\ In t (Dict.keys (tournament_stats st)))
  /\ (forall t, In t (tournament_types st') ->
                is_main_type t /\ In t (Dict.keys (tournament_stats st'))).
Proof.
  cbv zeta. rewrite h2h_calculate_count, rg_calculate_count.
  change (CricketReportGenerator.store CricketReportGenerator.empty_state)
    with empty_store.
  destruct (run_types CricketHeadToHead.classify_match data empty_store)
    as (N1 & I1 & K1).
  destruct (run_types CricketReportGenerator.classify_match data empty_store)
    as (N2 & I2 & K2).
  cbv zeta in *.
  assert (E1 : forall t,
             In t (tournament_types
                     (fold_left (count_match CricketHeadToHead.classify_match)
                                data empty_store))
             <-> exists m, In m data /\ selected m <> None
                           /\ fst (CricketHeadToHead.classify_match m) = t).
  { intros t. rewrite I1. split; [intros [[] | H]; exact H | now right]. }
  assert (E2 : forall t,
             In t (tournament_types
                     (fold_left (count_match CricketReportGenerator.classify_match)
                                data empty_store))
             <-> exists m, In m data /\ selected m <> None
                           /\ fst (CricketReportGenerator.classify_match m) = t).
  { intros t. rewrite I2. split; [intros [[] | H]; exact H | now right]. }
  split; [apply N1; constructor|].
  split; [apply N2; constructor|].
  split; [exact E1|]. split; [exact E2|].
  split; intros t Ht.
  - split; [| apply K1; [intros ? [] | exact Ht]].
    apply E1 in Ht. destruct Ht as (m & _ & _ & <-).
    apply main_type_one_of_three.
  - split; [| apply K2; [intros ? [] | exact Ht]].
    apply E2 in Ht. destruct Ht as (m & _ & _ & <-).
    unfold CricketReportGenerator.classify_match.
    rewrite <- parse_variants_eq. apply main_type_one_of_three.
Qed.

Section Pictures.

(** The loop body of [calculate_statistics] in terms of the selected
    participants, pictures included *)
Lemma rg_process_selected (st : CricketReportGenerator.State) (m : Match) :
  CricketReportGenerator.process_match st m
  = match selected m with
    | Some (me, opp) =>
        let name := opponent_name_of opp in
        CricketReportGenerator.mkState
          (record_result name (Dict.get "result" me)
             (fst (CricketReportGenerator.classify_match m))
             (snd (CricketReportGenerator.classify_match m))
             (CricketReportGenerator.store st))
          (if negb (PyStr.truthy (Some (CricketReportGenerator.player_pic_url st)))
           then Dict.get_default "" "pic_url" me
           else CricketReportGenerator.player_pic_url st)
          (if negb (Dict.mem name (CricketReportGenerator.opponent_pics st))
           then (CricketReportGenerator.opponent_pics st
                 ++ [(name, Dict.get_default "" "pic_url" opp)])%list
           else CricketReportGenerator.opponent_pics st)
    | None => st
    end.
Proof.
  unfold CricketReportGenerator.process_match, selected.
  destruct (not_completed_dual m); [reflexivity|].
  destruct (find_players (users m)) as [[me|] [opp|]]; try reflexivity.
  - destruct me, opp; cbn [user_truthy negb orb andb]; try reflexivity.
    now destruct (CricketReportGenerator.classify_match m).
  - now destruct me.
Qed.

Lemma mem_as_keys {V : Type} (k : string) (d : Dict.t V) :
  Dict.mem k d = existsb (fun k' => String.eqb k' k) (Dict.keys d).
Proof.
  unfold Dict.mem, Dict.keys.
  induction d as [|[k0 v] d IH]; cbn [Dict.get map fst existsb]; [reflexivity|].
  destruct (String.eqb k0 k); [reflexivity | exact IH].
Qed.

Lemma mem_update {V : Type} (dflt : V) (g : V -> V) (k : string) (d : Dict.t V) :
  Dict.mem k (Dict.update dflt g k d) = true.
Proof. unfold Dict.mem. now rewrite get_update, String.eqb_refl. Qed.

Lemma record_result_global_keys (o : string) (r : option string) (mt sub : string)
    (st : Store) :
  Dict.keys (head_to_head_stats (record_result o r mt sub st))
  = if Dict.mem o (head_to_head_stats st)
    then Dict.keys (head_to_head_stats st)
    else (Dict.keys (head_to_head_stats st) ++ [o])%list.
Proof.
  unfold record_result.
  destruct (result_is r "WIN"); [| destruct (result_is r "LOSS")];
    cbn [head_to_head_stats]; rewrite !keys_update, ?mem_update; reflexivity.
Qed.

Lemma get_app {V : Type} (k : string) (d d' : Dict.t V) :
  Dict.get k (d ++ d')
  = match Dict.get k d with
    | Some v => Some v
    | None => Dict.get k d'
    end.
Proof.
  induction d as [|[k0 v] d IH]; cbn [app Dict.get]; [reflexivity|].
  now destruct (String.eqb k0 k).
Qed.

Lemma rg_process_keys (st : CricketReportGenerator.State) (m : Match) :
  Dict.keys (CricketReportGenerator.opponent_pics st)
  = Dict.keys (head_to_head_stats (CricketReportGenerator.store st)) ->
  Dict.keys (CricketReportGenerator.opponent_pics
               (CricketReportGenerator.process_match st m))
  = Dict.keys (head_to_head_stats
                 (CricketReportGenerator.store
                    (CricketReportGenerator.process_match st m))).
Proof.
  intros H. rewrite rg_process_selected.
  destruct (selected m) as [[me opp]|]; [|exact H].
  cbv zeta. cbn [CricketReportGenerator.opponent_pics CricketReportGenerator.store].
  rewrite record_result_global_keys, !mem_as_keys, H.
  destruct (existsb _ _); cbn [negb]; [exact H|].
  unfold Dict.keys in *. rewrite map_app, H. reflexivity.
Qed.

Lemma rg_process_pic_kept (st : CricketReportGenerator.State) (m : Match)
    (name url : string) :
  Dict.get name (CricketReportGenerator.opponent_pics st) = Some url ->
  Dict.get name (CricketReportGenerator.opponent_pics
                   (CricketReportGenerator.process_match st m)) = Some url.
Proof.
  intros H. rewrite rg_process_selected.
  destruct (selected m) as [[me opp]|]; [|exact H].
  cbv zeta. cbn [CricketReportGenerator.opponent_pics].
  destruct (negb _); [|exact H]. now rewrite get_app, H.
Qed.

Lemma rg_process_player_pic_kept (st : CricketReportGenerator.State) (m : Match)
    (c : ascii) (url : string) :
  CricketReportGenerator.player_pic_url st = String c url ->
  CricketReportGenerator.player_pic_url
    (CricketReportGenerator.process_match st m) = String c url.
Proof.
  intros H. rewrite rg_process_selected.
  destruct (selected m) as [[me opp]|]; [|exact H].
  cbv zeta. cbn [CricketReportGenerator.player_pic_url]. now rewrite H.
Qed.

End Pictures.

(** X8. After a run of [calculate_statistics] from the empty state, the
    picture dictionary has the same keys in the same order as the global
    aggregate: every opponent of the tables has an entry, and no one else. *)
Theorem opponent_pics_follow_opponents (data : list Match) :
  let st := CricketReportGenerator.calculate_statistics
              data CricketReportGenerator.empty_state in
  Dict.keys (CricketReportGenerator.opponent_pics st)
  = Dict.keys (head_to_head_stats (CricketReportGenerator.store st)).
Proof.
  cbv zeta. unfold CricketReportGenerator.calculate_statistics.
  assert (G : forall st,
             Dict.keys (CricketReportGenerator.opponent_pics st)
             = Dict.keys (head_to_head_stats (CricketReportGenerator.store st)) ->
             Dict.keys (CricketReportGenerator.opponent_pics
                          (fold_left CricketReportGenerator.process_match data st))
             = Dict.keys (head_to_head_stats
                            (CricketReportGenerator.store
                               (fold_left CricketReportGenerator.process_match
                                          data st)))).
  { induction data as [|m data IH]; intros st H; cbn [fold_left]; [exact H|].
    apply IH, rg_process_keys, H. }
  apply G. reflexivity.
Qed.

(** X9. The first picture wins. A name that has a picture keeps it through
    any further run; a name without one gets the picture of the opponent of
    the next counted match against that name (the empty string if that
    record has none); and the picture of the tracked player, once it is not
    empty, stays. *)
Theorem first_picture_kept (st : CricketReportGenerator.State) :
  (forall data name url,
     Dict.get name (CricketReportGenerator.opponent_pics st) = Some url ->
     Dict.get name (CricketReportGenerator.opponent_pics
                      (CricketReportGenerator.calculate_statistics data st))
     = Some url)
  /\ (forall m me opp data,
        selected m = Some (me, opp) ->
        Dict.get (opponent_name_of opp) (CricketReportGenerator.opponent_pics st)
        = None ->
        Dict.get (opponent_name_of opp)
          (CricketReportGenerator.opponent_pics
             (CricketReportGenerator.calculate_statistics (m :: data) st))
        = Some (Dict.get_default "" "pic_url" opp))
  /\ (forall data c url,
        CricketReportGenerator.player_pic_url st = String c url ->
        CricketReportGenerator.player_pic_url
          (CricketReportGenerator.calculate_statistics data st) = String c url).
Proof.
  assert (K : forall data st0 name url,
             Dict.get name (CricketReportGenerator.opponent_pics st0) = Some url ->
             Dict.get name (CricketReportGenerator.opponent_pics
                              (CricketReportGenerator.calculate_statistics data st0))
             = Some url).
  { unfold CricketReportGenerator.calculate_statistics.
    induction data as [|m data IH]; intros st0 name url H; cbn [fold_left];
      [exact H|]. apply IH, rg_process_pic_kept, H. }
  repeat split.
  - intros data name url. apply K.
  - intros m me opp data Hs Hn.
    unfold CricketReportGenerator.calculate_statistics. cbn [fold_left].
    apply K. rewrite rg_process_selected, Hs. cbv zeta.
    cbn [CricketReportGenerator.opponent_pics].
    unfold Dict.mem. rewrite Hn. cbn [negb].
    rewrite get_app, Hn. cbn [Dict.get]. now rewrite String.eqb_refl.
  - unfold CricketReportGenerator.calculate_statistics.
    intros data. revert st.
    induction data as [|m data IH]; intros st c url H; cbn [fold_left];
      [exact H|]. apply IH, rg_process_player_pic_kept, H.
Qed.

Lemma first_picture_kept_witness :
  Dict.get "A"
    (CricketReportGenerator.opponent_pics
       (CricketReportGenerator.calculate_statistics
          [mkMatch (Some "COMPLETED") (Some "DUAL_PLAYER")
             [Samples.participant player_id "Prasanna Nivas" "WIN";
              [("user_id", "opp-1"); ("name", "A"); ("pic_url", "first.png")]]
             None None;
           mkMatch (Some "COMPLETED") (Some "DUAL_PLAYER")
             [Samples.participant player_id "Prasanna Nivas" "WIN";
              [("user_id", "opp-2"); ("name", "A"); ("pic_url", "second.png")]]
             None None]
          CricketReportGenerator.empty_state))
  = Some "first.png".
Proof.
  apply (proj1 (proj2 (first_picture_kept CricketReportGenerator.empty_state))
           (mkMatch (Some "COMPLETED") (Some "DUAL_PLAYER")
              [Samples.participant player_id "Prasanna Nivas" "WIN";
               [("user_id", "opp-1"); ("name", "A"); ("pic_url", "first.png")]]
              None None)
           (Samples.participant player_id "Prasanna Nivas" "WIN")
           [("user_id", "opp-1"); ("name", "A"); ("pic_url", "first.png")]).
  - reflexivity.
  - reflexivity.
Defined.

(** ** The records after a run *)

Section RecordsAfterRun.

Lemma global_delta_sum_fields (o : string) (data : list Match) :
  let s := sum_stats (map (fun m => global_delta m o) data) in
  let p (opp : User) := String.eqb (opponent_name_of opp) o in
  total_matches s = count_counted (fun _ _ opp => p opp) data
  /\ wins s = count_counted (fun _ me opp => p opp && won me) data
  /\ losses s = count_counted (fun _ me opp => p opp && lost me) data.
Proof.
  unfold count_counted, sum_stats.
  induction data as [|m data (IH1 & IH2 & IH3)]; [repeat split|].
  cbv zeta in *. cbn [map fold_right add_stats total_matches wins losses].
  rewrite !count_cons, IH1, IH2, IH3.
  unfold global_delta, won, lost, result_delta.
  destruct (selected m) as [[me opp]|];
    [destruct (String.eqb (opponent_name_of opp) o)|];
    cbn [scale_stats b2z total_matches wins losses new_stats andb];
    unfold new_stats; cbn [total_matches wins losses];
    try destruct (result_is (Dict.get "result" me) "WIN");
    try destruct (result_is (Dict.get "result" me) "LOSS");
    cbn [b2z]; repeat split; lia.
Qed.

Lemma apply_delta_twice (d : Stats) :
  wf_delta d ->
  apply_delta d (apply_delta d None) = option_map double_stats (apply_delta d None).
Proof.
  intros (W & L & T). unfold apply_delta.
  destruct (total_matches d =? 0); [reflexivity|].
  cbn [option_map stats_or_new]. f_equal.
  unfold double_stats. stats_arith.
Qed.

Lemma fold_left_ext_in {A B : Type} (f g : A -> B -> A) (l : list B) :
  (forall a b, In b l -> f a b = g a b) ->
  forall a, fold_left f l a = fold_left g l a.
Proof.
  induction l as [|b l IH]; intros H a; cbn [fold_left]; [reflexivity|].
  rewrite (H a b (or_introl eq_refl)). apply IH.
  intros a' b' Hb. apply H. now right.
Qed.

Lemma get_not_in_keys {V : Type} (k : string) (d : Dict.t V) :
  ~ In k (Dict.keys d) -> Dict.get k d = None.
Proof.
  induction d as [|[k0 v] d IH]; intros H; cbn [Dict.get]; [reflexivity|].
  destruct (String.eqb_spec k0 k) as [->|N].
  - exfalso. apply H. now left.
  - apply IH. intros Hin. apply H. now right.
Qed.

End RecordsAfterRun.

(** X10. After a run from the empty store, an opponent name has a global
    record exactly when a counted match was played against that name, and
    the record holds the numbers of those matches: all, won, lost. Both
    classes. *)
Theorem global_record_counts_matches (data : list Match) (o : string) :
  let p (opp : User) := String.eqb (opponent_name_of opp) o in
  let n := count_counted (fun _ _ opp => p opp) data in
  let expected :=
    if n =? 0 then None
    else Some (mkStats (count_counted (fun _ me opp => p opp && won me) data)
                       (count_counted (fun _ me opp => p opp && lost me) data)
                       n) in
  global_record (CricketHeadToHead.calculate_head_to_head data empty_store) o
  = expected
  /\ global_record
       (CricketReportGenerator.store
          (CricketReportGenerator.calculate_statistics
             data CricketReportGenerator.empty_state)) o
     = expected.
Proof.
  cbv zeta. rewrite h2h_calculate_count, rg_calculate_count.
  change (CricketReportGenerator.store CricketReportGenerator.empty_state)
    with empty_store.
  rewrite !fold_global.
  destruct (global_delta_sum_fields o data) as (T & W & L). cbv zeta in *.
  unfold apply_delta. rewrite T.
  destruct (count_counted _ data =? 0); [split; reflexivity|].
  change (global_record empty_store o) with (@None Stats).
  cbn [stats_or_new]. rewrite add_new_stats_l.
  split; f_equal; apply stats_eq; cbn [wins losses total_matches]; assumption.
Qed.

(** X11. The aggregates are kept in the object, so a second run over the
    same matches adds to the first: every record of the global aggregate
    and of every bucket is doubled. *)
Theorem second_run_doubles (data : list Match) (b o : string) :
  let once := CricketHeadToHead.calculate_head_to_head data empty_store in
  let twice := CricketHeadToHead.calculate_head_to_head data once in
  global_record twice o = option_map double_stats (global_record once o)
  /\ bucket_record twice b o = option_map double_stats (bucket_record once b o).
Proof.
  cbv zeta. rewrite !h2h_calculate_count, !fold_global, !fold_bucket.
  change (global_record empty_store o) with (@None Stats).
  change (bucket_record empty_store b o) with (@None Stats).
  split; apply apply_delta_twice, wf_sum, Forall_map, Forall_forall; intros.
  - apply wf_global_delta.
  - apply wf_bucket_delta.
Qed.

(** X12. On matches that carry the same tournament name at the top level
    and on the nested path (or on neither), the two classes build the same
    three aggregates. *)
Theorem classes_build_same_store (data : list Match) :
  (forall m, In m data ->
             CricketHeadToHead.resolve_tournament_name m
             = CricketReportGenerator.resolve_tournament_name m) ->
  forall gst : CricketReportGenerator.State,
    CricketReportGenerator.store
      (CricketReportGenerator.calculate_statistics data gst)
    = CricketHeadToHead.calculate_head_to_head
        data (CricketReportGenerator.store gst).
Proof.
  intros H gst. rewrite h2h_calculate_count, rg_calculate_count.
  apply fold_left_ext_in. intros st m Hm. unfold count_match.
  unfold CricketReportGenerator.classify_match, CricketHeadToHead.classify_match.
  now rewrite <- parse_variants_eq, (H m Hm).
Qed.

Lemma classes_build_same_store_witness :
  CricketReportGenerator.store
    (CricketReportGenerator.calculate_statistics
       [Samples.won_in_other; Samples.other_cup; Samples.three_way]
       CricketReportGenerator.empty_state)
  = CricketHeadToHead.calculate_head_to_head
      [Samples.won_in_other; Samples.other_cup; Samples.three_way] empty_store.
Proof.
  apply (classes_build_same_store
           [Samples.won_in_other; Samples.other_cup; Samples.three_way]).
  intros m [<- | [<- | [<- | []]]]; reflexivity.
Defined.

(** X13. A label other than ["All"] that no match of the input is
    classified with, as main type or as subtype, has the empty summary after
    a run from the empty store: zero totals and no opponents. *)
Theorem unseen_label_empty_summary (data : list Match) (b : string) :
  b <> "All" ->
  (forall m, In m data ->
             fst (CricketHeadToHead.classify_match m) <> b
             /\ snd (CricketHeadToHead.classify_match m) <> b) ->
  let st := CricketHeadToHead.calculate_head_to_head data empty_store in
  CricketHeadToHeadQueries.get_statistics_data b st
  = CricketHeadToHeadQueries.mkSummary 0 0 0 PrimFloat.zero []
  /\ CricketReportGeneratorQueries.get_statistics_summary b st
     = CricketReportGeneratorQueries.mkSummary 0 0 0 PrimFloat.zero 0 [].
Proof.
  intros N H st.
  assert (E : stats_data b st = []).
  { rewrite (stats_data_bucket b st N). unfold Dict.get_default.
    rewrite get_not_in_keys; [reflexivity|].
    subst st. rewrite h2h_calculate_count. intros Hin.
    apply keys_fold in Hin. destruct Hin as [[] | (m & Hm & [E | E])];
      destruct (H m Hm); congruence. }
  unfold CricketHeadToHeadQueries.get_statistics_data,
    CricketReportGeneratorQueries.get_statistics_summary.
  rewrite E. repeat split.
Qed.

(** ** The best and the toughest opponent *)

Section Toughest.

Lemma Qltb_true (a b : Q) : CricketHeadToHeadQueries.Qltb a b = true <-> (a < b)%Q.
Proof.
  unfold CricketHeadToHeadQueries.Qltb. rewrite Qlt_alt.
  destruct (Qcompare a b); split; congruence.
Qed.

Lemma Qltb_false (a b : Q) : CricketHeadToHeadQueries.Qltb a b = false <-> (b <= a)%Q.
Proof.
  split.
  - intros H. apply Qnot_lt_le. intros L. apply Qltb_true in L. congruence.
  - intros H. destruct (CricketHeadToHeadQueries.Qltb a b) eqn:E; [|reflexivity].
    apply Qltb_true in E. exfalso. now apply (Qlt_not_le _ _ E).
Qed.

Lemma win_rate_below_start (s : Stats) :
  wins s <= total_matches s -> 2 <= total_matches s ->
  (win_rate s < inject_Z 2)%Q.
Proof.
  intros Hw Ht. unfold win_rate. apply Qlt_shift_div_r.
  - change 0%Q with (inject_Z 0). rewrite <- Zlt_Qlt. lia.
  - rewrite <- inject_Z_mult, <- Zlt_Qlt. lia.
Qed.

Lemma toughest_loop_snoc (d : Dict.t Stats) (x : string * Stats) :
  CricketHeadToHeadQueries.toughest_loop (d ++ [x])
  = CricketHeadToHeadQueries.toughest_step
      (CricketHeadToHeadQueries.toughest_loop d) x.
Proof.
  unfold CricketHeadToHeadQueries.toughest_loop. now rewrite fold_left_app.
Qed.

(** What the loop of [find_toughest_opponent] leaves: nothing when no
    record has two matches, else the first record, in iteration order, whose
    win rate no record with two matches goes below. *)
Lemma toughest_loop_first_min (d : Dict.t Stats) :
  (forall k s, In (k, s) d -> wins s <= total_matches s) ->
  match fst (CricketHeadToHeadQueries.toughest_loop d) with
  | None =>
      snd (CricketHeadToHeadQueries.toughest_loop d) = inject_Z 2
      /\ forall k s, In (k, s) d -> total_matches s < 2
  | Some o =>
      exists d1 s d2,
        d = (d1 ++ (o, s) :: d2)%list
        /\ 2 <= total_matches s
        /\ snd (CricketHeadToHeadQueries.toughest_loop d) = win_rate s
        /\ (forall k' s', In (k', s') d1 -> 2 <= total_matches s' ->
                          (win_rate s < win_rate s')%Q)
        /\ (forall k' s', In (k', s') d2 -> 2 <= total_matches s' ->
                          (win_rate s <= win_rate s')%Q)
  end.
Proof.
  induction d as [|[k s] d IH] using rev_ind; intros Hw.
  - cbn. split; [reflexivity | tauto].
  - assert (Hw' : forall k s, In (k, s) d -> wins s <= total_matches s).
    { intros k0 s0 H0. apply (Hw k0 s0), in_or_app. now left. }
    specialize (IH Hw'). rewrite toughest_loop_snoc.
    unfold CricketHeadToHeadQueries.toughest_step. fold (win_rate s).
    destruct (Z.leb_spec 2 (total_matches s)) as [Ht|Ht].
    + destruct (CricketHeadToHeadQueries.toughest_loop d) as [[o|] r];
        cbn [fst snd] in *.
      * destruct IH as (d1 & s0 & d2 & -> & Ht0 & -> & Hb & Ha).
        destruct (CricketHeadToHeadQueries.Qltb (win_rate s) (win_rate s0)) eqn:G;
          cbn [fst snd].
        -- apply Qltb_true in G.
           exists (d1 ++ (o, s0) :: d2)%list, s, [].
           repeat split; try assumption; [|intros ? ? []].
           intros k' s' Hin Ht'. apply in_app_or in Hin.
           destruct Hin as [Hin | [Hin | Hin]].
           ++ apply Qlt_trans with (win_rate s0); [exact G | now apply (Hb k')].
           ++ injection Hin as <- <-. exact G.
           ++ apply Qlt_le_trans with (win_rate s0); [exact G | now apply (Ha k')].
        -- apply Qltb_false in G.
           exists d1, s0, (d2 ++ [(k, s)])%list.
           repeat split; try assumption.
           ++ now rewrite <- app_assoc.
           ++ intros k' s' Hin Ht'. apply in_app_or in Hin.
              destruct Hin as [Hin | [Hin | []]]; [now apply (Ha k')|].
              injection Hin as <- <-. exact G.
      * destruct IH as [-> Hnone].
        assert (G : CricketHeadToHeadQueries.Qltb (win_rate s) (inject_Z 2) = true).
        { apply Qltb_true, win_rate_below_start; [|exact Ht].
          apply (Hw k s), in_or_app. right. now left. }
        rewrite G. cbn [fst snd].
        exists d, s, []. repeat split; try assumption; [|intros ? ? []].
        intros k' s' Hin Ht'. specialize (Hnone k' s' Hin). lia.
    + destruct (CricketHeadToHeadQueries.toughest_loop d) as [[o|] r];
        cbn [fst snd] in *.
      * destruct IH as (d1 & s0 & d2 & -> & Ht0 & -> & Hb & Ha).
        exists d1, s0, (d2 ++ [(k, s)])%list.
        repeat split; try assumption.
        -- now rewrite <- app_assoc.
        -- intros k' s' Hin Ht'. apply in_app_or in Hin.
           destruct Hin as [Hin | [Hin | []]]; [now apply (Ha k')|].
           injection Hin as <- <-. lia.
      * destruct IH as [-> Hnone]. split; [reflexivity|].
        intros k' s' Hin. apply in_app_or in Hin.
        destruct Hin as [Hin | [Hin | []]]; [now apply (Hnone k')|].
        injection Hin as <- <-. exact Ht.
Qed.

Variable classify : Match -> string * string.

Lemma mem_false_not_in {V : Type} (k : string) (d : Dict.t V) :
  Dict.mem k d = false -> ~ In k (Dict.keys d).
Proof.
  rewrite mem_as_keys. intros H Hin.
  assert (existsb (fun k' => String.eqb k' k) (Dict.keys d) = true);
    [|congruence].
  apply existsb_exists. exists k. split; [exact Hin | apply String.eqb_refl].
Qed.

Lemma run_global_keys_nodup (data : list Match) :
  forall st,
    NoDup (Dict.keys (head_to_head_stats st)) ->
    NoDup (Dict.keys (head_to_head_stats
                        (fold_left (count_match classify) data st))).
Proof.
  induction data as [|m data IH]; intros st H; cbn [fold_left]; [exact H|].
  apply IH. unfold count_match. destruct (selected m) as [[me opp]|]; [|exact H].
  rewrite record_result_global_keys.
  destruct (Dict.mem _ _) eqn:M; [exact H|].
  apply NoDup_app; [exact H | repeat constructor; intros [] |].
  intros y Hy [E | []]. subst y. now apply (mem_false_not_in _ _ M).
Qed.

Lemma get_in_nodup {V : Type} (k : string) (v : V) (d : Dict.t V) :
  NoDup (Dict.keys d) -> In (k, v) d -> Dict.get k d = Some v.
Proof.
  induction d as [|[k0 v0] d IH]; intros N H; [destruct H|].
  cbn [Dict.keys map fst] in N. inversion N as [|? ? Hn N']; subst.
  cbn [Dict.get]. destruct H as [E | H].
  - injection E as -> ->. now rewrite String.eqb_refl.
  - destruct (String.eqb_spec k0 k) as [->|Ne]; [|now apply IH].
    exfalso. apply Hn. change k with (fst (k, v)).
    apply in_map, H.
Qed.

(** Every record of the global aggregate after a run from the empty store
    has no more wins and losses than matches. *)
Lemma run_global_records_wf (data : list Match) (k : string) (s : Stats) :
  In (k, s) (head_to_head_stats (fold_left (count_match classify) data empty_store)) ->
  0 <= wins s /\ wins s <= total_matches s.
Proof.
  intros H. apply get_in_nodup in H.
  - destruct (global_total_ge_after_run classify data k s H) as (W & L & T). lia.
  - apply run_global_keys_nodup. constructor.
Qed.

End Toughest.





(** X16. After a run from the empty store the two loops find an opponent
    together or not at all, and when they do, the rate of the toughest
    opponent is not above the rate of the best. *)
Theorem toughest_rate_not_above_best (data : list Match) :
  let d := head_to_head_stats
             (CricketHeadToHead.calculate_head_to_head data empty_store) in
  match fst (best_loop d), fst (CricketHeadToHeadQueries.toughest_loop d) with
  | Some _, Some _ =>
      (snd (CricketHeadToHeadQueries.toughest_loop d) <= snd (best_loop d))%Q
  | None, None => True
  | _, _ => False
  end.
Proof.
  cbv zeta. rewrite h2h_calculate_count.
  assert (W : forall k s,
             In (k, s) (head_to_head_stats
                          (fold_left (count_match CricketHeadToHead.classify_match)
                                     data empty_store)) ->
             0 <= wins s /\ wins s <= total_matches s).
  { intros k s. apply run_global_records_wf. }
  pose proof (best_loop_first_max _ (fun k s H => proj1 (W k s H))) as B.
  pose proof (toughest_loop_first_min _ (fun k s H => proj2 (W k s H))) as T.
  destruct (fst (best_loop _)) as [ob|], (fst (CricketHeadToHeadQueries.toughest_loop _))
    as [ot|].
  - destruct B as (b1 & sb & b2 & Eb & Hb & -> & Bb & Ba).
    destruct T as (t1 & st & t2 & Et & Ht & -> & _ & _).
    assert (I : In (ot, st) (b1 ++ (ob, sb) :: b2)).
    { rewrite <- Eb, Et. apply in_elt. }
    apply in_app_or in I. destruct I as [I | [I | I]].
    + apply Qlt_le_weak. now apply (Bb ot).
    + injection I as _ <-. apply Qle_refl.
    + now apply (Ba ot).
  - destruct B as (b1 & sb & b2 & Eb & Hb & _). destruct T as [_ Tn].
    specialize (Tn ob sb). rewrite Eb in Tn. specialize (Tn (in_elt _ _ _)). lia.
  - destruct T as (t1 & st & t2 & Et & Ht & _). destruct B as [_ Bn].
    specialize (Bn ot st). rewrite Et in Bn. specialize (Bn (in_elt _ _ _)). lia.
  - exact I.
Qed.

(** ** The shape of the labels *)

Section LabelShape.

Lemma prefix_space_head (c : ascii) (s : string) :
  prefix " " (String c s) = Ascii.eqb c " ".
Proof.
  cbn [prefix]. destruct (ascii_dec " " c) as [<-|N].
  - now destruct s.
  - symmetry. apply Ascii.eqb_neq. congruence.
Qed.

Lemma no_space_append (a b : string) :
  no_space (a ++ b) = no_space a && no_space b.
Proof.
  induction a as [|c a IH]; cbn [append no_space]; [reflexivity|].
  now rewrite IH, andb_assoc.
Qed.

(** The first word of a text has no space. *)
Lemma first_word_no_space (s : string) :
  forall cur,
    no_space cur = true ->
    no_space (hd "" (PyStr.split_from " " O cur s)) = true.
Proof.
  induction s as [|c s IH]; intros cur H; cbn [PyStr.split_from hd]; [exact H|].
  rewrite prefix_space_head. destruct (Ascii.eqb c " ") eqn:E; cbn [hd].
  - exact H.
  - apply IH. rewrite no_space_append, H. cbn [no_space]. now rewrite E.
Qed.

Lemma prefix_no_space (needle : string) :
  forall s, prefix needle s = true -> no_space s = true -> no_space needle = true.
Proof.
  induction needle as [|a needle IH]; intros s P N; [reflexivity|].
  destruct s as [|b s]; [discriminate|].
  rewrite prefix_cons in P. destruct (ascii_dec a b) as [->|]; [|discriminate].
  cbn [no_space] in *. apply andb_true_iff in N. destruct N as [N1 N2].
  rewrite N1. now apply (IH s).
Qed.

(** A text without a space contains no text that has one. *)
Lemma contains_no_space (needle s : string) :
  no_space needle = false -> no_space s = true -> PyStr.contains needle s = false.
Proof.
  intros Hn. induction s as [|c s IH]; intros Hs.
  - cbn [PyStr.contains]. destruct needle; [discriminate | reflexivity].
  - cbn [PyStr.contains]. cbn [no_space] in Hs.
    apply andb_true_iff in Hs. destruct Hs as [H1 H2].
    rewrite (IH H2), orb_false_r.
    destruct (prefix needle (String c s)) eqn:P; [|reflexivity].
    apply prefix_no_space in P; [congruence|].
    cbn [no_space]. now rewrite H1, H2.
Qed.

(** Without a separator the split has one part. *)
Lemma split_from_no_sep (sep s : string) :
  forall cur,
    PyStr.contains sep s = false ->
    PyStr.split_from sep O cur s = [(cur ++ s)%string].
Proof.
  induction s as [|c s IH]; intros cur H; cbn [PyStr.split_from].
  - now rewrite append_nil_r.
  - apply contains_cons_false in H. destruct H as [P C].
    rewrite P, (IH _ C). now rewrite append_assoc_char.
Qed.

Lemma split_label (m x : string) :
  m = "iBC PRO 360" \/ m = "iBC 360" ->
  no_space x = true ->
  PyStr.split " - " (m ++ " - " ++ x) = [m; x]
  /\ PyStr.split " " x = [x].
Proof.
  intros Hm Hx.
  assert (C : PyStr.contains " - " x = false) by now apply contains_no_space.
  assert (D : PyStr.contains " " x = false) by now apply contains_no_space.
  split.
  - unfold PyStr.split.
    pose proof (split_from_no_sep " - " x "" C) as S. cbn [append] in S.
    destruct Hm as [-> | ->]; destruct x as [|c x];
      cbn [append PyStr.split_from]; try reflexivity;
      cbn [append PyStr.split_from String.length Nat.pred] in *;
      now rewrite S.
  - unfold PyStr.split. now rewrite (split_from_no_sep " " x "" D).
Qed.

(** The two labels of a classification, by cases *)
Lemma classification_shape (n : option string) :
  let cls := CricketHeadToHead.parse_tournament_type n in
  (exists x, no_space x = true
             /\ (cls = ("iBC PRO 360", ("iBC PRO 360 - " ++ x)%string)
                 \/ cls = ("iBC 360", ("iBC 360 - " ++ x)%string)))
  \/ cls = ("Other", "Unknown")
  \/ (exists name, n = Some name /\ cls = ("Other", name)
                   /\ PyStr.truthy n = true
                   /\ PyStr.contains "iBC PRO 360" name = false
                   /\ PyStr.contains "iBC 360" name = false).
Proof.
  cbv zeta. unfold CricketHeadToHead.parse_tournament_type.
  destruct (PyStr.truthy n) eqn:T; cbn [negb]; [|auto].
  destruct (PyStr.contains "iBC PRO 360" _) eqn:C1.
  { left. destruct (1 <? _)%nat.
    - eexists. split; [|left; reflexivity].
      apply first_word_no_space. reflexivity.
    - exists "Unknown". split; [reflexivity | now left]. }
  destruct (PyStr.contains "iBC 360" _) eqn:C2.
  { left. destruct (1 <? _)%nat.
    - eexists. split; [|right; reflexivity].
      apply first_word_no_space. reflexivity.
    - exists "Unknown". split; [reflexivity | now right]. }
  right. right. destruct n as [name|]; [|discriminate].
  exists name. auto.
Qed.

End LabelShape.

(** X17. The classifier returns one of the three main types. With a main
    type ["iBC PRO 360"] or ["iBC 360"] the subtype is the main type, the
    separator [" - "] and a word without a space; with ["Other"] it is
    ["Unknown"] for an absent or empty name, and the name itself
    otherwise. Both classes. *)
Theorem labels_have_fixed_shape (n : option string) :
  let cls := CricketHeadToHead.parse_tournament_type n in
  CricketReportGenerator.parse_tournament_type n = cls
  /\ is_main_type (fst cls)
  /\ (fst cls = "iBC PRO 360" \/ fst cls = "iBC 360" ->
      exists x, snd cls = (fst cls ++ " - " ++ x)%string /\ no_space x = true)
  /\ (fst cls = "Other" ->
      (PyStr.truthy n = false /\ snd cls = "Unknown") \/ n = Some (snd cls)).
Proof.
  cbv zeta. split; [symmetry; apply parse_variants_eq|].
  split; [apply main_type_one_of_three|].
  destruct (classification_shape n)
    as [(x & Hx & [E | E]) | [E | (name & -> & E & T & _)]];
    cbv zeta in *; rewrite E; cbn [fst snd]; split;
    try (intros [H | H]; discriminate H);
    try (intros H; discriminate H).
  - intros _. now exists x.
  - intros _. now exists x.
  - intros _. unfold CricketHeadToHead.parse_tournament_type in E.
    destruct (PyStr.truthy n) eqn:T; [|now left].
    cbn [negb] in E. right.
    destruct (PyStr.contains "iBC PRO 360" _).
    { destruct (1 <? _)%nat; discriminate. }
    destruct (PyStr.contains "iBC 360" _).
    { destruct (1 <? _)%nat; discriminate. }
    destruct n; [|discriminate]. now injection E as ->.
  - intros _. now right.
Qed.

Lemma labels_have_fixed_shape_witness :
  exists x,
    snd (CricketHeadToHead.parse_tournament_type (Some "iBC 360 - 250 Blitz"))
    = ("iBC 360" ++ " - " ++ x)%string
    /\ no_space x = true.
Proof.
  apply (proj1 (proj2 (proj2 (labels_have_fixed_shape
                                (Some "iBC 360 - 250 Blitz"))))).
  right. reflexivity.
Defined.

(** X18. A subtype label classifies as itself: the classifier applied to
    the subtype it returned gives the same pair again, so a tournament whose
    name is a subtype label falls into that bucket. Both classes. *)
Theorem subtype_classifies_as_itself (n : option string) :
  CricketHeadToHead.parse_tournament_type
    (Some (snd (CricketHeadToHead.parse_tournament_type n)))
  = CricketHeadToHead.parse_tournament_type n
  /\ CricketReportGenerator.parse_tournament_type
       (Some (snd (CricketReportGenerator.parse_tournament_type n)))
     = CricketReportGenerator.parse_tournament_type n.
Proof.
  assert (G : CricketHeadToHead.parse_tournament_type
                (Some (snd (CricketHeadToHead.parse_tournament_type n)))
              = CricketHeadToHead.parse_tournament_type n).
  { destruct (classification_shape n)
      as [(x & Hx & [E | E]) | [E | (name & -> & E & T & C1 & C2)]];
      cbv zeta in *; rewrite E; cbn [snd].
    - unfold CricketHeadToHead.parse_tournament_type.
      destruct (split_label "iBC PRO 360" x (or_introl eq_refl) Hx) as [S1 S2].
      cbn [append] in S1. cbn [PyStr.truthy append negb].
      change (PyStr.contains "iBC PRO 360" (String "i" ("BC PRO 360 - " ++ x)))
        with true.
      cbv iota. change (String "i" ("BC PRO 360 - " ++ x))
        with ("iBC PRO 360 - " ++ x)%string.
      cbn [append]. rewrite S1. cbn [List.length Nat.ltb Nat.leb nth].
      now rewrite S2.
    - unfold CricketHeadToHead.parse_tournament_type.
      destruct (split_label "iBC 360" x (or_intror eq_refl) Hx) as [S1 S2].
      cbn [append] in S1. cbn [PyStr.truthy append negb].
      assert (P : PyStr.contains "iBC PRO 360" ("iBC 360 - " ++ x) = false).
      { change (PyStr.contains "iBC PRO 360" ("iBC 360 - " ++ x))
          with (PyStr.contains "iBC PRO 360" x).
        now apply contains_no_space. }
      cbn [append] in P. rewrite P.
      change (PyStr.contains "iBC 360" (String "i" ("BC 360 - " ++ x))) with true.
      cbv iota. rewrite S1. cbn [List.length Nat.ltb Nat.leb nth].
      now rewrite S2.
    - reflexivity.
    - unfold CricketHeadToHead.parse_tournament_type.
      rewrite T. cbn [negb]. now rewrite C1, C2. }
  split; [exact G|]. now rewrite <- !parse_variants_eq.
Qed.

(** ** [load_data] *)



Lemma unseen_label_empty_summary_witness :
  CricketHeadToHeadQueries.get_statistics_data "Weekly Cup"
    (CricketHeadToHead.calculate_head_to_head
       [Samples.won_against_nameless] empty_store)
  = CricketHeadToHeadQueries.mkSummary 0 0 0 PrimFloat.zero [].
Proof.
  apply (unseen_label_empty_summary [Samples.won_against_nameless] "Weekly Cup").
  - discriminate.
  - intros m [<- | []]. split; discriminate.
Defined.

(** ** The end of [main] in [cricket_head_to_head.py] *)

Section MainSummary.



Variable classify : Match -> string * string.


Lemma apply_delta_some_total (d s : Stats) :
  wf_delta d -> apply_delta d None = Some s -> 1 <= total_matches s.
Proof.
  intros (W & L & T). unfold apply_delta.
  destruct (Z.eqb_spec (total_matches d) 0) as [E|E]; [discriminate|].
  intros H. injection H as <-. cbn [stats_or_new add_stats total_matches new_stats].
  unfold new_stats. cbn [total_matches]. lia.
Qed.


Lemma run_global_records_positive (data : list Match) (k : string) (s : Stats) :
  In (k, s) (head_to_head_stats (fold_left (count_match classify) data empty_store)) ->
  1 <= total_matches s.
Proof.
  intros H. apply get_in_nodup in H.
  - change (global_record (fold_left (count_match classify) data empty_store) k
            = Some s) in H.
    rewrite fold_global in H. apply apply_delta_some_total in H; [exact H|].
    apply wf_sum, Forall_map, Forall_forall. intros; apply wf_global_delta.
  - apply run_global_keys_nodup. constructor.
Qed.


End MainSummary.

Section PrintStatistics.


End PrintStatistics.

